(** * PyNEST high-level API (pynest/nest/hl_api.py): marshalling layer

    A shallow embedding of the helper functions and of the marshalling
    operations of [hl_api.py], with the properties of the specification
    that concern them.

    Python values are an inductive type, exceptions a sum, and the
    module-level hooks [sps], [spp], [sr] and [pcd] act on an explicit
    channel state; every operation is a function from a channel state to
    a result (a value or a raised exception) and the state it leaves. *)

From stdpp Require Import gmap strings list pretty.
From Stdlib Require Import ZArith QArith Lia Ascii.

Set Warnings "-register-all".
Open Scope string_scope.
Open Scope Z_scope.

(** ** Python values *)

(** The Python values the API receives and returns.  A float is the
    rational it denotes (finite floats only), [PRange lo hi] is
    [range(lo, hi)], a dictionary is its list of items in insertion
    order, and [PLiteral] is an instance of [SLILiteral], the name
    wrapper that [hl_api.py] imports from [pynestkernel]. *)
Inductive pyval : Type :=
  | PNone
  | PBool (b : bool)
  | PInt (z : Z)
  | PFloat (q : Q)
  | PStr (s : string)
  | PLiteral (s : string)
  | PTuple (l : list pyval)
  | PList (l : list pyval)
  | PDict (kv : list (pyval * pyval))
  | PRange (lo hi : Z).

(** The classes that occur as second argument of [isinstance]. *)
Inductive pytype : Type :=
  | TyNone | TyBool | TyInt | TyFloat | TyStr | TySLILiteral
  | TyTuple | TyList | TyDict | TyRange.

Inductive exn : Type :=
  | TypeError (msg : string)
  | ValueError (msg : string)
  | NESTError (msg : string)
  | StopIteration.

Inductive result (A : Type) : Type :=
  | Ok (a : A)
  | Raise (e : exn).
Arguments Ok {A} a.
Arguments Raise {A} e.

Definition type_of (v : pyval) : pytype :=
  match v with
  | PNone => TyNone
  | PBool _ => TyBool
  | PInt _ => TyInt
  | PFloat _ => TyFloat
  | PStr _ => TyStr
  | PLiteral _ => TySLILiteral
  | PTuple _ => TyTuple
  | PList _ => TyList
  | PDict _ => TyDict
  | PRange _ _ => TyRange
  end.

Definition type_name (t : pytype) : string :=
  match t with
  | TyNone => "NoneType"
  | TyBool => "bool"
  | TyInt => "int"
  | TyFloat => "float"
  | TyStr => "str"
  | TySLILiteral => "SLILiteral"
  | TyTuple => "tuple"
  | TyList => "list"
  | TyDict => "dict"
  | TyRange => "range"
  end.

Definition pytype_eqb (a b : pytype) : bool :=
  match a, b with
  | TyNone, TyNone | TyBool, TyBool | TyInt, TyInt | TyFloat, TyFloat
  | TyStr, TyStr | TySLILiteral, TySLILiteral | TyTuple, TyTuple
  | TyList, TyList | TyDict, TyDict | TyRange, TyRange => true
  | _, _ => false
  end.

(** [bool] is a subclass of [int]; the other classes are unrelated. *)
Definition subclass (a b : pytype) : bool :=
  pytype_eqb a b ||
  match a, b with
  | TyBool, TyInt => true
  | _, _ => false
  end.

(** [isinstance(v, classes)] with a tuple of classes. *)
Definition isinstance (v : pyval) (classes : list pytype) : bool :=
  existsb (subclass (type_of v)) classes.

(** [len(v)]. *)
Definition py_len (v : pyval) : result Z :=
  match v with
  | PStr s => Ok (Z.of_nat (String.length s))
  | PTuple l | PList l => Ok (Z.of_nat (length l))
  | PDict kv => Ok (Z.of_nat (length kv))
  | PRange lo hi => Ok (Z.max 0 (hi - lo))
  | _ => Raise (TypeError ("object of type '" +:+ type_name (type_of v)
                           +:+ "' has no len()"))
  end.

(** [n * l] for a list or tuple body: [n] concatenated copies, none when
    [n <= 0]. *)
Definition seq_repeat {A : Type} (n : Z) (l : list A) : list A :=
  concat (replicate (Z.to_nat n) l).

Fixpoint str_repeat (n : nat) (s : string) : string :=
  match n with
  | O => ""
  | S n' => s +:+ str_repeat n' s
  end.

(** [n * v] for an integer [n]. *)
Definition py_mul (n : Z) (v : pyval) : result pyval :=
  match v with
  | PTuple l => Ok (PTuple (seq_repeat n l))
  | PList l => Ok (PList (seq_repeat n l))
  | PStr s => Ok (PStr (str_repeat (Z.to_nat n) s))
  | PInt z => Ok (PInt (n * z))
  | PBool b => Ok (PInt (n * Z.b2z b))
  | PFloat q => Ok (PFloat (inject_Z n * q))
  | _ => Raise (TypeError ("unsupported operand type(s) for *: 'int' and '"
                           +:+ type_name (type_of v) +:+ "'"))
  end.

(** ** broadcast *)

Definition broadcast_error (name : string) (length : Z) : exn :=
  TypeError ("'" +:+ name
             +:+ "' must be a single value, a list with one element or a list with "
             +:+ pretty length +:+ " elements.").

Definition broadcast (item : pyval) (length : Z) (allowed_types : list pytype)
    (name : string) : result pyval :=
  if isinstance item allowed_types then
    Ok (PTuple (seq_repeat length [item]))
  else
    match py_len item with
    | Raise e => Raise e
    | Ok n =>
        if n =? 1 then py_mul length item
        else if negb (n =? length) then Raise (broadcast_error name length)
        else Ok item
    end.

(** [contains needle hay]: [needle] occurs in [hay]. *)
Fixpoint contains (needle hay : string) : bool :=
  String.prefix needle hay ||
  match hay with
  | EmptyString => false
  | String _ rest => contains needle rest
  end.

(** ** Further builtins *)

(** [iter(v)] followed by exhausting the iterator. *)
Definition py_iter (v : pyval) : result (list pyval) :=
  match v with
  | PStr s => Ok (map (fun c => PStr (String c EmptyString)) (String.list_ascii_of_string s))
  | PTuple l | PList l => Ok l
  | PDict kv => Ok (map fst kv)
  | PRange lo hi => Ok (map (fun i => PInt (lo + Z.of_nat i)) (seq 0 (Z.to_nat (hi - lo))))
  | _ => Raise (TypeError ("'" +:+ type_name (type_of v) +:+ "' object is not iterable"))
  end.

(** [tuple(range(lo, hi))]. *)
Definition py_range (lo hi : Z) : list pyval :=
  map (fun i => PInt (lo + Z.of_nat i)) (seq 0 (Z.to_nat (hi - lo))).

(** The integer an [int] (or [bool]) object stands for. *)
Definition as_int (v : pyval) : option Z :=
  match v with
  | PInt z => Some z
  | PBool b => Some (Z.b2z b)
  | _ => None
  end.

Definition as_number (v : pyval) : option Q :=
  match v with
  | PInt z => Some (inject_Z z)
  | PBool b => Some (inject_Z (Z.b2z b))
  | PFloat q => Some q
  | _ => None
  end.

(** [a - b]. *)
Definition py_sub (a b : pyval) : result pyval :=
  match as_int a, as_int b with
  | Some x, Some y => Ok (PInt (x - y))
  | _, _ =>
      match as_number a, as_number b with
      | Some x, Some y => Ok (PFloat (x - y))
      | _, _ => Raise (TypeError ("unsupported operand type(s) for -: '"
                                  +:+ type_name (type_of a) +:+ "' and '"
                                  +:+ type_name (type_of b) +:+ "'"))
      end
  end.

(** Truncation of a rational towards zero, as [int(x)] and ["%i" % x] do
    for a float [x]. *)
Definition Qtrunc (q : Q) : Z := Z.quot (Qnum q) (Z.pos (Qden q)).

(** [v != 0] for the result of a subtraction. *)
Definition py_nonzero (v : pyval) : bool :=
  match as_number v with
  | Some q => negb (Qeq_bool q 0)
  | None => true
  end.

(** ["%i" % v]. *)
Definition format_i (v : pyval) : result string :=
  match as_number v with
  | Some q => Ok (pretty (Qtrunc q))
  | None => Raise (TypeError "%i format: a real number is required")
  end.

Fixpoint parse_digits (acc : Z) (s : string) : option Z :=
  match s with
  | EmptyString => Some acc
  | String c rest =>
      let d := Z.of_nat (Ascii.nat_of_ascii c) - 48 in
      if (0 <=? d) && (d <=? 9) then parse_digits (10 * acc + d) rest else None
  end.

(** A decimal numeral with an optional sign.  (Python accepts more, such
    as surrounding blanks; connection tuples carry numbers, not strings.) *)
Definition parse_int (s : string) : option Z :=
  match s with
  | EmptyString => None
  | String "-"%char (String c r) => Z.opp <$> parse_digits 0 (String c r)
  | String "+"%char (String c r) => parse_digits 0 (String c r)
  | _ => parse_digits 0 s
  end.

(** [int(v)]. *)
Definition py_int (v : pyval) : result Z :=
  match v with
  | PInt z => Ok z
  | PBool b => Ok (Z.b2z b)
  | PFloat q => Ok (Qtrunc q)
  | PStr s =>
      match parse_int s with
      | Some z => Ok z
      | None => Raise (ValueError ("invalid literal for int() with base 10: '" +:+ s +:+ "'"))
      end
  | _ => Raise (TypeError ("int() argument must be a string, a bytes-like object or a real number, not '"
                           +:+ type_name (type_of v) +:+ "'"))
  end.

(** ** Helper predicates of [hl_api.py] *)

Definition is_iterable (seq : pyval) : bool :=
  match py_iter seq with
  | Raise (TypeError _) => false
  | _ => true
  end.

Definition is_coercible_to_sli_array (seq : pyval) : bool :=
  isinstance seq [TyTuple; TyList; TyRange].

(** Modelled from the spec: [CONN_LEN] is imported from [pynestkernel],
    which is not part of the sources at hand; the connection handle is a
    fixed 5-field record. *)
Definition CONN_LEN : Z := 5.

(** [next(iter(seq))] raises [StopIteration] on an empty sequence, which
    the [except TypeError] clause does not catch. *)
Definition is_sequence_of_connections (seq : pyval) : result bool :=
  match py_iter seq with
  | Raise (TypeError _) => Ok false
  | Raise e => Raise e
  | Ok [] => Raise StopIteration
  | Ok (cnn :: _) =>
      if isinstance cnn [TyDict] then Ok true
      else match py_len cnn with
           | Ok n => Ok (n =? CONN_LEN)
           | Raise (TypeError _) => Ok false
           | Raise e => Raise e
           end
  end.

Definition is_sequence_of_gids (seq : list pyval) : bool :=
  forallb (fun n => isinstance n [TyInt] &&
                    match as_int n with Some z => 0 <=? z | None => false end) seq.

(** ** Connection handles *)

(** The connection identifier of [GetConnections]: source-gid,
    target-gid, target-thread, synapse-id, port. *)
Record ConnectionHandle : Type := {
  source : Z;
  target : Z;
  target_thread : Z;
  synapse_modelid : Z;
  port : Z
}.

(** The flat form of a handle on the channel: the 5-tuple of its fields
    in the order the docstring of [GetConnections] gives them
    (source-gid, target-gid, target-thread, synapse-id, port).
    [is_sequence_of_connections] accepts it as a subscriptable of
    [CONN_LEN] entries, and [SetStatus] and [GetStatus] hand it to [pcd]
    as it is. *)
Definition encode (h : ConnectionHandle) : pyval :=
  PTuple [PInt (source h); PInt (target h); PInt (target_thread h);
          PInt (synapse_modelid h); PInt (port h)].

(** One step of the generator in [FindConnections]:
    [for src, _, tt, sm, prt in ...] builds a dictionary of four
    integers. *)
Definition decode (flat : pyval) : result pyval :=
  match py_iter flat with
  | Raise e => Raise e
  | Ok [src; _; thr; sm; prt] =>
      match py_int src, py_int thr, py_int sm, py_int prt with
      | Ok s, Ok t, Ok m, Ok p =>
          Ok (PDict [(PStr "source", PInt s); (PStr "target_thread", PInt t);
                     (PStr "synapse_modelid", PInt m); (PStr "port", PInt p)])
      | Raise e, _, _, _ => Raise e
      | _, Raise e, _, _ => Raise e
      | _, _, Raise e, _ => Raise e
      | _, _, _, Raise e => Raise e
      end
  | Ok l =>
      if (length l <? 5)%nat
      then Raise (ValueError ("not enough values to unpack (expected 5, got "
                              +:+ pretty (length l) +:+ ")"))
      else Raise (ValueError "too many values to unpack (expected 5)")
  end.

Fixpoint map_result {A B : Type} (f : A -> result B) (l : list A) : result (list B) :=
  match l with
  | [] => Ok []
  | x :: rest =>
      match f x with
      | Raise e => Raise e
      | Ok y =>
          match map_result f rest with
          | Raise e => Raise e
          | Ok ys => Ok (y :: ys)
          end
      end
  end.

(** [tuple({...} for src, _, tt, sm, prt in popped)]. *)
Definition decode_all (popped : pyval) : result pyval :=
  match py_iter popped with
  | Raise e => Raise e
  | Ok rows =>
      match map_result decode rows with
      | Raise e => Raise e
      | Ok ds => Ok (PTuple ds)
      end
  end.

(** [d[key]] on a dictionary with string keys. *)
Fixpoint dict_get (key : string) (kv : list (pyval * pyval)) : option pyval :=
  match kv with
  | [] => None
  | (PStr k, v) :: rest => if String.eqb k key then Some v else dict_get key rest
  | _ :: rest => dict_get key rest
  end.

(** ** State and exceptions

    A computation takes the state to a result and the state it leaves;
    a raised exception keeps the state reached when it was raised. *)

Definition M (S A : Type) : Type := S -> result A * S.

Definition ret {S A : Type} (a : A) : M S A := fun s => (Ok a, s).

Definition raise {S A : Type} (e : exn) : M S A := fun s => (Raise e, s).

Definition lift {S A : Type} (r : result A) : M S A := fun s => (r, s).

Definition bind {S A B : Type} (c : M S A) (k : A -> M S B) : M S B :=
  fun s =>
    match c s with
    | (Ok a, s') => k a s'
    | (Raise e, s') => (Raise e, s')
    end.

Notation "x <- c ;; k" := (bind c (fun x => k))
  (at level 100, c at next level, right associativity).
Notation "c ;;; k" := (bind c (fun _ => k))
  (at level 100, right associativity).

(** [try: c except: handler]: a bare [except] catches every exception. *)
Definition try_except {S A : Type} (c : M S A) (handler : exn -> M S A) : M S A :=
  fun s =>
    match c s with
    | (Ok a, s') => (Ok a, s')
    | (Raise e, s') => handler e s'
    end.

(** [for x in l: body(x)]. *)
Fixpoint for_each {S A : Type} (l : list A) (body : A -> M S unit) : M S unit :=
  match l with
  | [] => ret tt
  | x :: rest => body x ;;; for_each rest body
  end.

Definition is_none (v : pyval) : bool :=
  match v with
  | PNone => true
  | _ => false
  end.

(** The builtin sequences whose product with an integer is their
    repetition: tuples, lists and strings. *)
Definition is_repeatable (v : pyval) : bool := isinstance v [TyTuple; TyList; TyStr].

(** ** extras/petafx/configure_fx.py: object files from source files *)

(** [re.sub("\.(cc|cpp|c)", ".o", fn)]: scanning from the left, every
    dot that is followed by [cc], else by [cpp], else by [c] is replaced,
    together with what matched, by [.o]; the scan goes on after the
    match. *)
Fixpoint sub_ending (fn : string) : string :=
  match fn with
  | EmptyString => EmptyString
  | String ch rest =>
      if Ascii.eqb ch "."%char then
        match rest with
        | EmptyString => String ch EmptyString
        | String c1 r1 =>
            if Ascii.eqb c1 "c"%char then
              match r1 with
              | EmptyString => ".o"
              | String c2 r2 =>
                  if Ascii.eqb c2 "c"%char then ".o" +:+ sub_ending r2
                  else if Ascii.eqb c2 "p"%char then
                    match r2 with
                    | EmptyString => ".o" +:+ sub_ending r1
                    | String c3 r3 =>
                        if Ascii.eqb c3 "p"%char then ".o" +:+ sub_ending r3
                        else ".o" +:+ sub_ending r1
                    end
                  else ".o" +:+ sub_ending r1
              end
            else String ch (sub_ending rest)
        end
      else String ch (sub_ending rest)
  end.

(** [get_object_from_source(filelist)]. *)
Definition get_object_from_source (filelist : list string) : list string :=
  map sub_ending filelist.

(** [reduce(lambda x, y: x + ' ' + y, objs)]: without an initial value
    [reduce] raises TypeError on an empty list. *)
Definition reduce_join (objs : list string) : result string :=
  match objs with
  | [] => Raise (TypeError "reduce() of empty sequence with no initial value")
  | x :: rest => Ok (foldl (fun x y => x +:+ " " +:+ y) x rest)
  end.

(** [Makefile.add_target]: the text written to the file, in one piece. *)
Definition add_target (target_dir target_name : string) (source_files : list string)
    : result string :=
  match reduce_join (get_object_from_source source_files) with
  | Raise e => Raise e
  | Ok objs =>
      Ok (target_name +:+ "_obj=" +:+ objs +:+ String "010" ""
          +:+ target_dir +:+ "/" +:+ target_name +:+ ": $(" +:+ target_name +:+ "_obj)"
          +:+ String "010" ""
          +:+ String "009" "" +:+ "$(LD) $(LDFLAGS) $(" +:+ target_name
          +:+ "_obj) $(LDLIBS) -o " +:+ target_dir +:+ "/" +:+ target_name
          +:+ String "010" (String "010" (String "010" "")))
  end.

(** [s] begins with the letter c. *)
Definition starts_c (s : string) : bool :=
  match s with
  | EmptyString => false
  | String ch _ => Ascii.eqb ch "c"%char
  end.

(** The dot does not occur in [s]. *)
Fixpoint dot_free (s : string) : bool :=
  match s with
  | EmptyString => true
  | String ch rest => negb (Ascii.eqb ch "."%char) && dot_free rest
  end.

(** ** A small interpreter to run the operations on

    The engine state is the identifier of the last node created.  The
    interpreter knows [count], the two forms of the [Create] command for
    the model [iaf_neuron], the three forms of [Connect] for the model
    [static_synapse], which it only takes off the stack, and [leak],
    which leaves one operand behind; every other command fails. *)

Definition demo_sli (cmd : string) (st : list pyval * Z) : result unit * (list pyval * Z) :=
  let '(stk, last) := st in
  if String.eqb cmd "count" then (Ok tt, (PInt (Z.of_nat (length stk)) :: stk, last))
  else if String.eqb cmd "/iaf_neuron exch Create" then
    match stk with
    | PInt n :: rest => (Ok tt, (PInt (last + n) :: rest, last + n))
    | _ => (Raise (NESTError "ArgumentType"), st)
    end
  else if String.eqb cmd "/iaf_neuron 3 1 roll exch Create" then
    match stk with
    | PInt n :: PDict _ :: rest => (Ok tt, (PInt (last + n) :: rest, last + n))
    | _ => (Raise (NESTError "ArgumentType"), st)
    end
  else if String.eqb cmd "/static_synapse Connect" then
    match stk with
    | PFloat _ :: PFloat _ :: PInt _ :: PInt _ :: rest => (Ok tt, (rest, last))
    | PDict _ :: PInt _ :: PInt _ :: rest => (Ok tt, (rest, last))
    | PInt _ :: PInt _ :: rest => (Ok tt, (rest, last))
    | _ => (Raise (NESTError "ArgumentType"), st)
    end
  else if String.eqb cmd "leak" then (Ok tt, (PNone :: stk, last))
  else (Raise (NESTError ("UndefinedName: " +:+ cmd)), st).

Fixpoint demo_join (l : list string) : string :=
  match l with
  | [] => ""
  | [x] => x
  | x :: rest => x +:+ ", " +:+ demo_join rest
  end.

(** A rendering of values that is exact on integers and tuples of
    integers. *)
Definition demo_str (v : pyval) : string :=
  match v with
  | PInt z => pretty z
  | PStr s => s
  | PTuple [PInt z] => "(" +:+ pretty z +:+ ",)"
  | PTuple l =>
      "(" +:+ demo_join (map (fun x => match x with PInt z => pretty z | _ => "?" end) l) +:+ ")"
  | _ => "?"
  end.

(** The small interpreter with a [ConvergentConnect] command for the
    model [static_synapse], which takes the sources and one target off
    the stack. *)
Definition demo_sli_fan (cmd : string) (st : list pyval * Z) : result unit * (list pyval * Z) :=
  let '(stk, last) := st in
  if String.eqb cmd "/static_synapse ConvergentConnect" then
    match stk with
    | _ :: _ :: rest => (Ok tt, (rest, last))
    | _ => (Raise (NESTError "StackUnderflow"), st)
    end
  else demo_sli cmd st.

Section Marshaller.

(** The interpreter behind the hooks: its engine state, what [sr] does to
    the operand stack and the engine, and the builtin [str]. *)
Context {engine : Type}.
Variable sli : string -> list pyval * engine -> result unit * (list pyval * engine).
Variable py_str : pyval -> string.

(** The interpreter's [count] pushes the number of operands on the stack
    and leaves the engine alone; [stack_checker] reads the depth of the
    stack with it. *)
Hypothesis count_spec : forall stk k,
  sli "count" (stk, k) = (Ok tt, (PInt (Z.of_nat (length stk)) :: stk, k)).

(** ** The channel *)

Inductive event : Type :=
  | EvPush (v : pyval)
  | EvPushConnections (v : pyval)
  | EvPop
  | EvRun (cmd : string).

(** The operand stack and the engine, the module's [__debug] flag, the
    calls made on the hooks (latest first) and the warnings issued
    (latest first). *)
Record chan : Type := {
  stack : list pyval;
  kernel : engine;
  debug_flag : bool;
  calls : list event;
  warned : list string
}.

(** The module as imported: [__debug = False]. *)
Definition module_init (k : engine) : chan :=
  {| stack := []; kernel := k; debug_flag := false; calls := []; warned := [] |}.

Definition set_debug (dbg : bool) : M chan unit :=
  fun s => (Ok tt, {| stack := stack s; kernel := kernel s; debug_flag := dbg;
                      calls := calls s; warned := warned s |}).

Definition get_debug : M chan bool := fun s => (Ok (debug_flag s), s).

Definition sps (v : pyval) : M chan unit :=
  fun s => (Ok tt, {| stack := v :: stack s; kernel := kernel s; debug_flag := debug_flag s;
                      calls := EvPush v :: calls s; warned := warned s |}).

(** Modelled from the spec: [pcd] comes from [pynestkernel]; it pushes
    one operand, the array of connection datums made from the handles. *)
Definition pcd (v : pyval) : M chan unit :=
  fun s => (Ok tt, {| stack := v :: stack s; kernel := kernel s; debug_flag := debug_flag s;
                      calls := EvPushConnections v :: calls s; warned := warned s |}).

(** [spp] on an empty stack fails in the interpreter, which the kernel
    reports as a [NESTError]. *)
Definition spp : M chan pyval :=
  fun s =>
    match stack s with
    | v :: rest =>
        (Ok v, {| stack := rest; kernel := kernel s; debug_flag := debug_flag s;
                  calls := EvPop :: calls s; warned := warned s |})
    | [] =>
        (Raise (NESTError "StackUnderflow"),
         {| stack := []; kernel := kernel s; debug_flag := debug_flag s;
            calls := EvPop :: calls s; warned := warned s |})
    end.

Definition sr (cmd : string) : M chan unit :=
  fun s =>
    let '(r, (stk, k)) := sli cmd (stack s, kernel s) in
    (r, {| stack := stk; kernel := k; debug_flag := debug_flag s;
           calls := EvRun cmd :: calls s; warned := warned s |}).

(** [warnings.warn(msg)]. *)
Definition warn (msg : string) : M chan unit :=
  fun s => (Ok tt, {| stack := stack s; kernel := kernel s; debug_flag := debug_flag s;
                      calls := calls s; warned := msg :: warned s |}).

(** ** Stack checking *)

Definition stack_error (name text : string) : exn :=
  NESTError ("Function '" +:+ name +:+ "' left " +:+ text +:+ " elements on the stack.").

(** The body of [stack_checker_func] for a function named [name] whose
    call on the given arguments is [f]. *)
Definition stack_checker_func {A : Type} (name : string) (f : M chan A) : M chan A :=
  dbg <- get_debug ;;
  if negb dbg then f
  else
    sr "count" ;;;
    stackload_before <- spp ;;
    res <- f ;;
    sr "count" ;;;
    stackload_after <- spp ;;
    num_leftover_elements <- lift (py_sub stackload_after stackload_before) ;;
    if py_nonzero num_leftover_elements then
      text <- lift (format_i num_leftover_elements) ;;
      raise (stack_error name text)
    else ret res.

(** A Python function: its [__name__] and what a call does. *)
Record callable : Type := {
  fn_name : string;
  fn_call : list pyval -> M chan pyval
}.

(** [functools.wraps] keeps the name of the wrapped function. *)
Definition stack_checker (f : callable) : callable :=
  {| fn_name := fn_name f;
     fn_call := fun args => stack_checker_func (fn_name f) (fn_call f args) |}.

(** An attribute of a class as [inspect.getmembers] sees it: a method
    ([inspect.ismethod] holds), a plain function, or another value. *)
Inductive member : Type :=
  | MethodAttr (f : callable)
  | FunctionAttr (f : callable)
  | DataAttr (v : pyval).

(** What [check_stack] may be applied to: a function, a class with its
    attributes by name, or any other value. *)
Inductive thing : Type :=
  | FunctionObj (f : callable)
  | ClassObj (attrs : gmap string member)
  | OtherObj (v : pyval).

(** [inspect.getmembers(cls, predicate=inspect.ismethod)]. *)
Definition getmembers_ismethod (attrs : gmap string member) : list (string * callable) :=
  omap (fun nm => match nm.2 with
                  | MethodAttr f => Some (nm.1, f)
                  | _ => None
                  end) (map_to_list attrs).

Definition decorate_member (attrs : gmap string member) (nm : string * callable)
    : gmap string member :=
  if String.prefix "test_" nm.1
  then <[nm.1 := FunctionAttr (stack_checker nm.2)]> attrs
  else attrs.

Definition check_stack (t : thing) : result thing :=
  match t with
  | FunctionObj f => Ok (FunctionObj (stack_checker f))
  | ClassObj attrs =>
      Ok (ClassObj (foldl decorate_member attrs (getmembers_ismethod attrs)))
  | OtherObj v => Raise (ValueError ("unable to decorate " +:+ py_str v))
  end.

(** ** Node handling *)

Definition set_status_expand (params val : pyval) : M chan pyval :=
  if negb (is_none val) then
    if isinstance params [TyStr; TySLILiteral] then
      if is_iterable val && negb (isinstance val [TyStr; TyDict]) then
        xs <- lift (py_iter val) ;;
        ret (PList (map (fun x => PDict [(params, x)]) xs))
      else ret (PDict [(params, val)])
    else ret params
  else ret params.

Definition SetStatus_body (nodes params val : pyval) : M chan pyval :=
  if negb (is_coercible_to_sli_array nodes) then
    raise (TypeError "nodes must be a list of nodes or synapses")
  else
    len_nodes <- lift (py_len nodes) ;;
    if len_nodes =? 0 then ret PNone
    else
      params <- set_status_expand params val ;;
      params <- lift (broadcast params len_nodes [TyDict] "params") ;;
      len_params <- lift (py_len params) ;;
      if negb (len_nodes =? len_params) then
        raise (TypeError "status dict must be a dict, or list of dicts of length 1 or len(nodes)")
      else
        conns <- lift (is_sequence_of_connections nodes) ;;
        (if conns : bool then pcd nodes else sps nodes) ;;;
        sps params ;;;
        sr "2 arraystore" ;;;
        sr "Transpose { arrayload pop SetStatus } forall" ;;;
        ret PNone.

Definition SetStatus (nodes params val : pyval) : M chan pyval :=
  stack_checker_func "SetStatus" (SetStatus_body nodes params val).

(** [tuple(range(last_gid - n + 1, last_gid + 1))]. *)
Definition gid_range (last_gid : pyval) (n : Z) : result pyval :=
  match as_int last_gid with
  | Some l => Ok (PTuple (py_range (l - n + 1) (l + 1)))
  | None =>
      match py_sub last_gid (PInt n) with
      | Raise e => Raise e
      | Ok _ => Raise (TypeError "'float' object cannot be interpreted as an integer")
      end
  end.

Definition create_warning (gids : pyval) : string :=
  "SetStatus() call failed, but nodes have already been created! "
  +:+ "The GIDs of the new nodes are: " +:+ py_str gids +:+ ".".

Definition Create_body (model : string) (n : Z) (params : pyval) : M chan pyval :=
  cmd <- (if isinstance params [TyDict]
          then sps params ;;; ret ("/" +:+ model +:+ " 3 1 roll exch Create")
          else ret ("/" +:+ model +:+ " exch Create")) ;;
  sps (PInt n) ;;;
  sr cmd ;;;
  last_gid <- spp ;;
  gids <- lift (gid_range last_gid n) ;;
  (if negb (is_none params) && negb (isinstance params [TyDict]) then
     try_except (SetStatus gids params PNone ;;; ret tt)
                (fun e => warn (create_warning gids) ;;; raise e)
   else ret tt) ;;;
  ret gids.

Definition Create (model : string) (n : Z) (params : pyval) : M chan pyval :=
  stack_checker_func "Create" (Create_body model n params).

Definition get_status_cmd (keys : pyval) : result string :=
  if is_none keys then Ok "{ GetStatus } Map"
  else if isinstance keys [TyStr; TySLILiteral] then
    Ok ("{ GetStatus /" +:+ py_str keys +:+ " get } Map")
  else if is_iterable keys then
    match py_iter keys with
    | Raise e => Raise e
    | Ok ks =>
        Ok ("{ GetStatus } Map { [ [ "
            +:+ String.concat " " (map (fun x => "/" +:+ py_str x) ks)
            +:+ " ] ] get } Map")
    end
  else Raise (TypeError "keys should be either a string or an iterable").

Definition GetStatus_body (nodes keys : pyval) : M chan pyval :=
  if negb (is_coercible_to_sli_array nodes) then
    raise (TypeError "nodes must be a list of nodes or synapses")
  else
    len_nodes <- lift (py_len nodes) ;;
    if len_nodes =? 0 then ret nodes
    else
      cmd <- lift (get_status_cmd keys) ;;
      conns <- lift (is_sequence_of_connections nodes) ;;
      (if conns : bool then pcd nodes else sps nodes) ;;;
      sr cmd ;;;
      spp.

Definition GetStatus (nodes keys : pyval) : M chan pyval :=
  stack_checker_func "GetStatus" (GetStatus_body nodes keys).

(** ** Connection handling *)

Definition find_connections_params (source target synapse_model : pyval)
    : M chan (list pyval) :=
  if is_none target && is_none synapse_model then
    srcs <- lift (py_iter source) ;;
    ret (map (fun s => PDict [(PStr "source", s)]) srcs)
  else if is_none target && negb (is_none synapse_model) then
    n <- lift (py_len source) ;;
    synapse_model <- lift (broadcast synapse_model n [TyStr] "synapse_model") ;;
    srcs <- lift (py_iter source) ;;
    syns <- lift (py_iter synapse_model) ;;
    ret (map (fun '(s, syn) => PDict [(PStr "source", s); (PStr "synapse_model", syn)])
             (combine srcs syns))
  else if negb (is_none target) && is_none synapse_model then
    n <- lift (py_len source) ;;
    target <- lift (broadcast target n [TyInt] "target") ;;
    srcs <- lift (py_iter source) ;;
    tgts <- lift (py_iter target) ;;
    ret (map (fun '(s, t) => PDict [(PStr "source", s); (PStr "target", t)])
             (combine srcs tgts))
  else
    n <- lift (py_len source) ;;
    target <- lift (broadcast target n [TyInt] "target") ;;
    n <- lift (py_len source) ;;
    synapse_model <- lift (broadcast synapse_model n [TyStr] "synapse_model") ;;
    srcs <- lift (py_iter source) ;;
    tgts <- lift (py_iter target) ;;
    syns <- lift (py_iter synapse_model) ;;
    ret (map (fun '(s, t, syn) =>
                PDict [(PStr "source", s); (PStr "target", t); (PStr "synapse_model", syn)])
             (combine (combine srcs tgts) syns)).

Definition FindConnections_body (source target synapse_model synapse_type : pyval)
    : M chan pyval :=
  if negb (is_none synapse_model) && negb (is_none synapse_type) then
    raise (NESTError "synapse_type is alias for synapse_model, cannot be used together.")
  else
    let synapse_model := if negb (is_none synapse_type) then synapse_type else synapse_model in
    params <- find_connections_params source target synapse_model ;;
    sps (PList params) ;;;
    sr "{FindConnections} Map Flatten" ;;;
    popped <- spp ;;
    lift (decode_all popped).

Definition FindConnections (source target synapse_model synapse_type : pyval)
    : M chan pyval :=
  stack_checker_func "FindConnections"
    (FindConnections_body source target synapse_model synapse_type).

Definition connect_cmd (model : string) : string := "/" +:+ model +:+ " Connect".

Definition Connect_body (pre post params delay : pyval) (model : string) : M chan pyval :=
  len_pre <- lift (py_len pre) ;;
  len_post <- lift (py_len post) ;;
  if negb (len_pre =? len_post) then
    raise (NESTError "pre and post have to be the same length")
  else if is_none params && is_none delay then
    ss <- lift (py_iter pre) ;;
    ds <- lift (py_iter post) ;;
    for_each (combine ss ds)
      (fun '(s, d) => sps s ;;; sps d ;;; sr (connect_cmd model)) ;;;
    ret PNone
  else if negb (is_none params) && is_none delay then
    params <- lift (broadcast params len_pre [TyDict] "params") ;;
    len_params <- lift (py_len params) ;;
    if negb (len_params =? len_pre) then
      raise (NESTError "params must be a dict, or list of dicts of length 1 or len(pre).")
    else
      ss <- lift (py_iter pre) ;;
      ds <- lift (py_iter post) ;;
      ps <- lift (py_iter params) ;;
      for_each (combine (combine ss ds) ps)
        (fun '(s, d, p) => sps s ;;; sps d ;;; sps p ;;; sr (connect_cmd model)) ;;;
      ret PNone
  else if negb (is_none params) && negb (is_none delay) then
    params <- lift (broadcast params len_pre [TyFloat] "params") ;;
    len_params <- lift (py_len params) ;;
    if negb (len_params =? len_pre) then
      raise (NESTError "params must be a float, or list of floats of length 1 or len(pre) and will be used as weight(s).")
    else
      delay <- lift (broadcast delay len_pre [TyFloat] "delay") ;;
      len_delay <- lift (py_len delay) ;;
      if negb (len_delay =? len_pre) then
        raise (NESTError "delay must be a float, or list of floats of length 1 or len(pre).")
      else
        ss <- lift (py_iter pre) ;;
        ds <- lift (py_iter post) ;;
        ws <- lift (py_iter params) ;;
        dls <- lift (py_iter delay) ;;
        for_each (combine (combine (combine ss ds) ws) dls)
          (fun '(s, d, w, dl) =>
             sps s ;;; sps d ;;; sps w ;;; sps dl ;;; sr (connect_cmd model)) ;;;
        ret PNone
  else raise (NESTError "Both 'params' and 'delay' have to be given.").

Definition Connect (pre post params delay : pyval) (model : string) : M chan pyval :=
  stack_checker_func "Connect" (Connect_body pre post params delay model).

Definition convergent_cmd (model : string) : string := "/" +:+ model +:+ " ConvergentConnect".

Definition ConvergentConnect_body (pre post weight delay : pyval) (model : string)
    : M chan pyval :=
  if is_none weight && is_none delay then
    ds <- lift (py_iter post) ;;
    for_each ds (fun d => sps pre ;;; sps d ;;; sr (convergent_cmd model)) ;;;
    ret PNone
  else if negb (is_none weight) && negb (is_none delay) then
    len_pre <- lift (py_len pre) ;;
    weight <- lift (broadcast weight len_pre [TyFloat] "weight") ;;
    len_weight <- lift (py_len weight) ;;
    if negb (len_weight =? len_pre) then
      raise (NESTError "weight must be a float, or sequence of floats of length 1 or len(pre)")
    else
      delay <- lift (broadcast delay len_pre [TyFloat] "delay") ;;
      len_delay <- lift (py_len delay) ;;
      if negb (len_delay =? len_pre) then
        raise (NESTError "delay must be a float, or sequence of floats of length 1 or len(pre)")
      else
        ds <- lift (py_iter post) ;;
        for_each ds
          (fun d => sps pre ;;; sps d ;;; sps weight ;;; sps delay ;;;
                    sr (convergent_cmd model)) ;;;
        ret PNone
  else raise (NESTError "Both 'weight' and 'delay' have to be given.").

Definition ConvergentConnect (pre post weight delay : pyval) (model : string)
    : M chan pyval :=
  stack_checker_func "ConvergentConnect" (ConvergentConnect_body pre post weight delay model).

Definition divergent_cmd (model : string) : string := "/" +:+ model +:+ " DivergentConnect".

Definition DivergentConnect_body (pre post weight delay : pyval) (model : string)
    : M chan pyval :=
  if is_none weight && is_none delay then
    ss <- lift (py_iter pre) ;;
    for_each ss (fun s => sps s ;;; sps post ;;; sr (divergent_cmd model)) ;;;
    ret PNone
  else if negb (is_none weight) && negb (is_none delay) then
    len_post <- lift (py_len post) ;;
    weight <- lift (broadcast weight len_post [TyFloat] "weight") ;;
    len_weight <- lift (py_len weight) ;;
    if negb (len_weight =? len_post) then
      raise (NESTError "weight must be a float, or sequence of floats of length 1 or len(post)")
    else
      delay <- lift (broadcast delay len_post [TyFloat] "delay") ;;
      len_delay <- lift (py_len delay) ;;
      if negb (len_delay =? len_post) then
        raise (NESTError "delay must be a float, or sequence of floats of length 1 or len(post)")
      else
        ss <- lift (py_iter pre) ;;
        for_each ss
          (fun s => sps s ;;; sps post ;;; sps weight ;;; sps delay ;;;
                    sr (divergent_cmd model)) ;;;
        ret PNone
  else raise (NESTError "Both 'weight' and 'delay' have to be given.").

Definition DivergentConnect (pre post weight delay : pyval) (model : string)
    : M chan pyval :=
  stack_checker_func "DivergentConnect" (DivergentConnect_body pre post weight delay model).

(** The calls of a plain [Connect] on the pairs [ps], latest first: for
    each pair the source is pushed, then the target, then the command
    is run. *)
Definition connect_calls (model : string) (ps : list (pyval * pyval)) : list event :=
  flat_map (fun '(s, d) => [EvRun (connect_cmd model); EvPush d; EvPush s]) (rev ps).

(** The calls of a plain [ConvergentConnect] of [pre] on the targets
    [ds], latest first. *)
Definition convergent_calls (model : string) (pre : pyval) (ds : list pyval) : list event :=
  flat_map (fun d => [EvRun (convergent_cmd model); EvPush d; EvPush pre]) (rev ds).

(** ** States used in the statements *)

(** [s] after the calls [evs] (latest first) were logged. *)
Definition logged (evs : list event) (s : chan) : chan :=
  {| stack := stack s; kernel := kernel s; debug_flag := debug_flag s;
     calls := evs ++ calls s; warned := warned s |}.

(** The calls of one depth query: [sr('count')], then [spp()]. *)
Definition depth_query : list event := [EvPop; EvRun "count"].

(** The state in which the wrapped function starts: in diagnostic mode
    the wrapper has queried the depth once. *)
Definition body_entry (s : chan) : chan :=
  if debug_flag s then logged depth_query s else s.

(** The state the wrapper leaves when the wrapped function left [s'],
    [dbg] being the flag the wrapper read on entry. *)
Definition guard_exit (dbg : bool) (s' : chan) : chan :=
  if dbg then logged depth_query s' else s'.

Definition depth (s : chan) : Z := Z.of_nat (length (stack s)).

(** The state right after the creation step of [Create]: the arguments
    were pushed, [cmd] was run and left [stk] and [k], and the last
    identifier was popped. *)
Definition after_creation (s : chan) (cmd : string) (n : Z) (pushed : list pyval)
    (stk : list pyval) (k : engine) : chan :=
  {| stack := stk; kernel := k; debug_flag := debug_flag s;
     calls := EvPop :: EvRun cmd :: EvPush (PInt n) :: map EvPush pushed ++ calls s;
     warned := warned s |}.

Definition create_cmd (model : string) (params : pyval) : string :=
  if isinstance params [TyDict]
  then "/" +:+ model +:+ " 3 1 roll exch Create"
  else "/" +:+ model +:+ " exch Create".

Definition create_pushed (params : pyval) : list pyval :=
  if isinstance params [TyDict] then [params] else [].

(** [s] after [warnings.warn(msg)]. *)
Definition with_warning (msg : string) (s : chan) : chan :=
  {| stack := stack s; kernel := kernel s; debug_flag := debug_flag s;
     calls := calls s; warned := msg :: warned s |}.

(** [Create] goes on to [SetStatus] when [params] is neither [None] nor
    a dictionary. *)
Definition per_node_params (params : pyval) : bool :=
  negb (is_none params) && negb (isinstance params [TyDict]).


(** * Properties *)

(** ** Strings *)

Lemma prefix_app (a b : string) : String.prefix a (a +:+ b) = true.
Proof.
  induction a as [|c a IH]; simpl.
  - by destruct b.
  - destruct (ascii_dec c c); [exact IH | congruence].
Qed.

Lemma contains_prefix (a b : string) : contains a (a +:+ b) = true.
Proof.
  pose proof (prefix_app a b) as H.
  destruct (a +:+ b); cbn [contains]; rewrite H; reflexivity.
Qed.

Lemma contains_app_r (needle a b : string) :
  contains needle b = true -> contains needle (a +:+ b) = true.
Proof.
  intros H. induction a as [|c a IH]; [exact H|].
  change (String c a +:+ b) with (String c (a +:+ b)). cbn [contains].
  rewrite IH. apply orb_true_r.
Qed.

(** ** broadcast *)

Example broadcast_scalar :
  broadcast (PFloat 2) 3 [TyFloat] "weight" = Ok (PTuple [PFloat 2; PFloat 2; PFloat 2]).
Proof. reflexivity. Qed.

Example broadcast_singleton :
  broadcast (PList [PInt 7]) 3 [TyInt] "target" = Ok (PList [PInt 7; PInt 7; PInt 7]).
Proof. reflexivity. Qed.

Example broadcast_full :
  broadcast (PTuple [PInt 7; PInt 8]) 2 [TyInt] "target" = Ok (PTuple [PInt 7; PInt 8]).
Proof. reflexivity. Qed.

Example broadcast_no_length :
  broadcast (PInt 7) 2 [TyDict] "params" = Raise (TypeError "object of type 'int' has no len()").
Proof. reflexivity. Qed.




(** ** Connection handles *)

Example decode_truncates_floats :
  decode (PTuple [PFloat (7 # 2); PInt 9; PInt 0; PBool true; PStr "12"])
  = Ok (PDict [(PStr "source", PInt 3); (PStr "target_thread", PInt 0);
               (PStr "synapse_modelid", PInt 1); (PStr "port", PInt 12)]).
Proof. reflexivity. Qed.

Example decode_short_tuple :
  decode (PTuple [PInt 1; PInt 2]) = Raise (ValueError "not enough values to unpack (expected 5, got 2)").
Proof. reflexivity. Qed.

Lemma handles_are_connections (h : ConnectionHandle) (rest : list pyval) :
  is_sequence_of_connections (PTuple (encode h :: rest)) = Ok true.
Proof. reflexivity. Qed.

(** C2, as stated, fails: two handles that differ in the target field
    only have the same decoded form, which has no entry for the target;
    so nothing recovers a handle from what decoding its flat form
    yields. *)
Lemma decode_forgets_target :
  let h1 := {| source := 1; target := 2; target_thread := 0; synapse_modelid := 0; port := 0 |} in
  let h2 := {| source := 1; target := 3; target_thread := 0; synapse_modelid := 0; port := 0 |} in
  h1 <> h2
  /\ decode (encode h1) = decode (encode h2)
  /\ decode (encode h1)
     = Ok (PDict [(PStr "source", PInt 1); (PStr "target_thread", PInt 0);
                  (PStr "synapse_modelid", PInt 0); (PStr "port", PInt 0)])
  /\ ~ (exists back : pyval -> ConnectionHandle,
          forall h d, decode (encode h) = Ok d -> back d = h).
Proof.
  simpl. repeat split; try discriminate.
  intros [back Hback].
  pose proof (Hback {| source := 1; target := 2; target_thread := 0;
                       synapse_modelid := 0; port := 0 |} _ eq_refl) as H1.
  pose proof (Hback {| source := 1; target := 3; target_thread := 0;
                       synapse_modelid := 0; port := 0 |} _ eq_refl) as H2.
  simpl in H1, H2. rewrite H1 in H2. discriminate.
Qed.

(** C2 (amended): decoding the flat form of a handle yields a dictionary
    of exactly four entries, [source], [target_thread],
    [synapse_modelid] and [port], each the integer of the handle's
    field; the target field is dropped. *)
Theorem decode_encode_fields (h : ConnectionHandle) :
  exists kv,
    decode (encode h) = Ok (PDict kv)
    /\ length kv = 4%nat
    /\ dict_get "source" kv = Some (PInt (source h))
    /\ dict_get "target_thread" kv = Some (PInt (target_thread h))
    /\ dict_get "synapse_modelid" kv = Some (PInt (synapse_modelid h))
    /\ dict_get "port" kv = Some (PInt (port h))
    /\ dict_get "target" kv = None.
Proof. destruct h. eexists. repeat split. Qed.

(** What the decoded form determines: two handles decode alike exactly
    when they agree on the four fields that are kept. *)
Lemma decode_encode_agree (h1 h2 : ConnectionHandle) :
  decode (encode h1) = decode (encode h2)
  <-> source h1 = source h2 /\ target_thread h1 = target_thread h2
      /\ synapse_modelid h1 = synapse_modelid h2 /\ port h1 = port h2.
Proof.
  destruct h1, h2. simpl. split.
  - intros H. inversion H. auto.
  - intros (-> & -> & -> & ->). reflexivity.
Qed.

(** ** The stack checker *)

Lemma py_nonzero_int (z : Z) : py_nonzero (PInt z) = negb (z =? 0).
Proof.
  unfold py_nonzero, Qeq_bool. simpl. rewrite Z.mul_1_r.
  destruct z; reflexivity.
Qed.

Lemma sub_eqb_0 (a b : Z) : (a - b =? 0) = (a =? b).
Proof. destruct (Z.eqb_spec a b), (Z.eqb_spec (a - b) 0); (reflexivity || lia). Qed.

Lemma format_i_int (z : Z) : format_i (PInt z) = Ok (pretty z).
Proof. unfold format_i, Qtrunc. simpl. by rewrite Z.quot_1_r. Qed.

Lemma depth_query_run (s : chan) :
  (sr "count" ;;; spp) s = (Ok (PInt (depth s)), logged depth_query s).
Proof. unfold bind, sr, spp. rewrite count_spec. reflexivity. Qed.

Lemma stack_checker_off {A : Type} (name : string) (f : M chan A) (s : chan) :
  debug_flag s = false -> stack_checker_func name f s = f s.
Proof.
  intros Hd. unfold stack_checker_func, bind, get_debug. rewrite Hd. reflexivity.
Qed.

Lemma stack_checker_on {A : Type} (name : string) (f : M chan A) (s : chan) :
  debug_flag s = true ->
  stack_checker_func name f s
  = (res <- f ;;
     stackload_after <- (sr "count" ;;; spp) ;;
     num_leftover_elements <- lift (py_sub stackload_after (PInt (depth s))) ;;
     if py_nonzero num_leftover_elements then
       text <- lift (format_i num_leftover_elements) ;;
       raise (stack_error name text)
     else ret res) (logged depth_query s).
Proof.
  intros Hd. unfold stack_checker_func at 1, get_debug. unfold bind at 1. rewrite Hd.
  cbn [negb]. unfold bind at 1.
  pose proof (depth_query_run s) as Hq. unfold bind in Hq at 1.
  destruct (sr "count" s) as [[[]|e] s0] eqn:E.
  - unfold bind at 1. rewrite Hq. unfold bind.
    destruct (f (logged depth_query s)) as [[r|e] s1]; [|reflexivity].
    destruct (sr "count" s1) as [[[]|e] s2]; reflexivity.
  - discriminate.
Qed.

Lemma stack_checker_raise {A : Type} (name : string) (f : M chan A) (s s' : chan) (e : exn) :
  f (body_entry s) = (Raise e, s') -> stack_checker_func name f s = (Raise e, s').
Proof.
  unfold body_entry. destruct (debug_flag s) eqn:Hd; intros Hf.
  - rewrite stack_checker_on by exact Hd. unfold bind at 1. by rewrite Hf.
  - by rewrite stack_checker_off.
Qed.

Lemma stack_checker_return {A : Type} (name : string) (f : M chan A) (s s' : chan) (r : A) :
  f (body_entry s) = (Ok r, s') ->
  stack_checker_func name f s
  = (if debug_flag s && negb (depth s' =? depth s)
     then Raise (stack_error name (pretty (depth s' - depth s)))
     else Ok r,
     guard_exit (debug_flag s) s').
Proof.
  unfold body_entry, guard_exit. destruct (debug_flag s) eqn:Hd; intros Hf.
  - rewrite stack_checker_on by exact Hd. unfold bind at 1. rewrite Hf.
    unfold bind at 1. rewrite depth_query_run.
    unfold bind, lift. cbn [py_sub as_int]. rewrite py_nonzero_int.
    rewrite sub_eqb_0.
    destruct (depth s' =? depth s); cbn [negb andb]; [reflexivity|].
    rewrite format_i_int. reflexivity.
  - rewrite stack_checker_off by exact Hd. by rewrite Hf.
Qed.

(** C7: in diagnostic mode, when the wrapped function returns [r] and
    the depth of the stack changed across the call, the wrapper raises
    the error that names the function and the number of elements left
    over; when the depth is the same, the wrapper returns [r]. *)
Theorem stack_checker_diagnostic {A : Type} (name : string) (f : M chan A)
    (s s' : chan) (r : A) :
  debug_flag s = true ->
  f (logged depth_query s) = (Ok r, s') ->
  (depth s' <> depth s ->
     stack_checker_func name f s
     = (Raise (NESTError ("Function '" +:+ name +:+ "' left "
                          +:+ pretty (depth s' - depth s)
                          +:+ " elements on the stack.")),
        logged depth_query s'))
  /\ (depth s' = depth s ->
     stack_checker_func name f s = (Ok r, logged depth_query s')).
Proof.
  intros Hd Hf.
  assert (Hentry : f (body_entry s) = (Ok r, s')) by (unfold body_entry; by rewrite Hd).
  rewrite (stack_checker_return name f s s' r Hentry), Hd.
  unfold guard_exit, stack_error. cbn [andb]. split; intros H.
  - apply Z.eqb_neq in H. by rewrite H.
  - apply Z.eqb_eq in H. by rewrite H.
Qed.

(** C8: the module starts with the debug flag off, and while it is off
    a wrapped call is the call of the wrapped function: same result and
    same state, hence no call on the channel besides those the function
    makes. *)
Theorem stack_checker_disabled :
  (forall k, debug_flag (module_init k) = false)
  /\ (forall (A : Type) (name : string) (f : M chan A) (s : chan),
        debug_flag s = false -> stack_checker_func name f s = f s)
  /\ (forall (f : callable) (args : list pyval) (s : chan),
        debug_flag s = false -> fn_call (stack_checker f) args s = fn_call f args s).
Proof.
  split; [reflexivity|]. split.
  - intros. by apply stack_checker_off.
  - intros f args s Hd. simpl. by apply stack_checker_off.
Qed.

(** ** check_stack *)

Lemma getmembers_ismethod_elem (attrs : gmap string member) (name : string) (f : callable) :
  (name, f) ∈ getmembers_ismethod attrs <-> attrs !! name = Some (MethodAttr f).
Proof.
  unfold getmembers_ismethod. rewrite list_elem_of_omap. split.
  - intros [[k m] [Hin Hm]]. apply elem_of_map_to_list in Hin. simpl in Hm.
    destruct m; inversion Hm; subst. exact Hin.
  - intros H. exists (name, MethodAttr f). split; [by apply elem_of_map_to_list | reflexivity].
Qed.

Lemma getmembers_ismethod_NoDup (attrs : gmap string member) :
  NoDup (getmembers_ismethod attrs).*1.
Proof.
  unfold getmembers_ismethod.
  pose proof (NoDup_fst_map_to_list attrs) as Hnd.
  induction (map_to_list attrs) as [|[k m] l IH]; simpl; [constructor|].
  inversion_clear Hnd as [|? ? Hk Hl].
  destruct m; simpl; auto.
  constructor; [|auto].
  intros Hin. apply Hk. apply list_elem_of_fmap in Hin as [[k' f'] [-> Hin]].
  apply list_elem_of_omap in Hin as [[k'' m''] [Hin Hm]].
  simpl in Hm. destruct m''; inversion Hm; subst.
  apply list_elem_of_fmap. by exists (k', MethodAttr f').
Qed.

Lemma foldl_decorate_other (l : list (string * callable)) (acc : gmap string member)
    (name : string) :
  name ∉ l.*1 -> foldl decorate_member acc l !! name = acc !! name.
Proof.
  revert acc. induction l as [|[k f] l IH]; intros acc Hn; [reflexivity|].
  simpl in *. apply not_elem_of_cons in Hn as [Hne Hn].
  rewrite IH by exact Hn. unfold decorate_member. simpl.
  destruct (String.prefix "test_" k); [|reflexivity].
  by rewrite lookup_insert_ne.
Qed.

Lemma foldl_decorate_member (l : list (string * callable)) (acc : gmap string member)
    (name : string) (f : callable) :
  NoDup l.*1 -> (name, f) ∈ l ->
  foldl decorate_member acc l !! name
  = if String.prefix "test_" name then Some (FunctionAttr (stack_checker f)) else acc !! name.
Proof.
  revert acc. induction l as [|[k g] l IH]; intros acc Hnd Hin.
  - by apply elem_of_nil in Hin.
  - simpl in Hnd. inversion_clear Hnd as [|? ? Hk Hl].
    apply elem_of_cons in Hin as [Heq|Hin].
    + inversion Heq; subst k g. simpl. rewrite foldl_decorate_other by exact Hk.
      unfold decorate_member. simpl.
      destruct (String.prefix "test_" name); [by rewrite lookup_insert_eq | reflexivity].
    + simpl. rewrite (IH _ Hl Hin).
      destruct (String.prefix "test_" name) eqn:Hp; [reflexivity|].
      unfold decorate_member. simpl.
      destruct (String.prefix "test_" k); [|reflexivity].
      rewrite lookup_insert_ne; [reflexivity|].
      intros ->. apply Hk. apply list_elem_of_fmap. by exists (name, f).
Qed.

(** C10: applied to a function, [check_stack] returns the function
    wrapped; applied to a class, it returns the class in which every
    method whose name starts with [test_] is replaced by its wrapped
    form and every other attribute is as before; applied to anything
    else it raises ValueError. *)
Theorem check_stack_cases :
  (forall f, check_stack (FunctionObj f) = Ok (FunctionObj (stack_checker f)))
  /\ (forall attrs, exists attrs',
        check_stack (ClassObj attrs) = Ok (ClassObj attrs')
        /\ forall name,
             attrs' !! name
             = match attrs !! name with
               | Some (MethodAttr f) =>
                   if String.prefix "test_" name
                   then Some (FunctionAttr (stack_checker f))
                   else Some (MethodAttr f)
               | other => other
               end)
  /\ (forall v, check_stack (OtherObj v)
                = Raise (ValueError ("unable to decorate " +:+ py_str v))).
Proof.
  split; [reflexivity|]. split; [|reflexivity].
  intros attrs. eexists. split; [reflexivity|]. intros name.
  destruct (attrs !! name) as [m|] eqn:Hm.
  - destruct m as [f|f|v].
    + rewrite (foldl_decorate_member _ _ name f).
      * rewrite Hm. reflexivity.
      * apply getmembers_ismethod_NoDup.
      * by apply getmembers_ismethod_elem.
    + rewrite foldl_decorate_other; [exact Hm|].
      intros Hin. apply list_elem_of_fmap in Hin as [[k g] [-> Hin]].
      apply getmembers_ismethod_elem in Hin. simpl in Hm. congruence.
    + rewrite foldl_decorate_other; [exact Hm|].
      intros Hin. apply list_elem_of_fmap in Hin as [[k g] [-> Hin]].
      apply getmembers_ismethod_elem in Hin. simpl in Hm. congruence.
  - rewrite foldl_decorate_other; [exact Hm|].
    intros Hin. apply list_elem_of_fmap in Hin as [[k g] [-> Hin]].
    apply getmembers_ismethod_elem in Hin. simpl in Hm. congruence.
Qed.

(** ** SetStatus and GetStatus on no nodes *)

Lemma body_entry_depth (s : chan) : depth (body_entry s) = depth s.
Proof. unfold body_entry. by destruct (debug_flag s). Qed.

Lemma stack_checker_balanced {A : Type} (name : string) (f : M chan A) (s s' : chan) (r : A) :
  f (body_entry s) = (Ok r, s') -> depth s' = depth s ->
  stack_checker_func name f s = (Ok r, guard_exit (debug_flag s) s').
Proof.
  intros Hf Hd. rewrite (stack_checker_return name f s s' r Hf).
  apply Z.eqb_eq in Hd. rewrite Hd. by rewrite andb_false_r.
Qed.

Lemma SetStatus_body_empty (nodes params val : pyval) (s : chan) :
  is_coercible_to_sli_array nodes = true -> py_len nodes = Ok 0 ->
  SetStatus_body nodes params val s = (Ok PNone, s).
Proof.
  intros Hc Hl. unfold SetStatus_body. rewrite Hc. cbn [negb].
  unfold bind, lift. rewrite Hl. reflexivity.
Qed.

Lemma GetStatus_body_empty (nodes keys : pyval) (s : chan) :
  is_coercible_to_sli_array nodes = true -> py_len nodes = Ok 0 ->
  GetStatus_body nodes keys s = (Ok nodes, s).
Proof.
  intros Hc Hl. unfold GetStatus_body. rewrite Hc. cbn [negb].
  unfold bind, lift. rewrite Hl. reflexivity.
Qed.

(** C6: on an empty sequence of nodes [SetStatus] returns [None] at once
    and leaves the state as it was, whatever [params] and [val] are: no
    push, no command, no pop, no exception.  This holds of the function
    itself and of the decorated function while the debug flag is off;
    with the flag on, the decorated function returns [None] as well, and
    the only calls are the two depth queries of the wrapper. *)
Theorem SetStatus_empty_is_noop (nodes params val : pyval) (s : chan) :
  is_coercible_to_sli_array nodes = true ->
  py_len nodes = Ok 0 ->
  SetStatus_body nodes params val s = (Ok PNone, s)
  /\ (debug_flag s = false -> SetStatus nodes params val s = (Ok PNone, s))
  /\ (debug_flag s = true ->
        SetStatus nodes params val s = (Ok PNone, logged (depth_query ++ depth_query) s)).
Proof.
  intros Hc Hl. split; [by apply SetStatus_body_empty|].
  pose proof (stack_checker_balanced "SetStatus" (SetStatus_body nodes params val) s
                (body_entry s) PNone (SetStatus_body_empty _ _ _ _ Hc Hl)
                (body_entry_depth s)) as H.
  unfold SetStatus. rewrite H. unfold guard_exit, body_entry.
  split; intros ->; reflexivity.
Qed.

Example GetStatus_invalid_keys_nonempty (s : chan) :
  GetStatus_body (PTuple [PInt 1]) (PInt 5) s
  = (Raise (TypeError "keys should be either a string or an iterable"), s).
Proof. reflexivity. Qed.

(** C9: on an empty sequence of nodes [GetStatus] returns the sequence
    it was given, for every [keys], also one that is neither a name nor
    a sequence of names: [keys] is looked at only after the test for
    emptiness.  This holds of the function itself and of the decorated
    function while the debug flag is off; with the flag on, the
    decorated function returns the same, and the only calls are the two
    depth queries of the wrapper. *)
Theorem GetStatus_empty_returns_nodes (nodes keys : pyval) (s : chan) :
  is_coercible_to_sli_array nodes = true ->
  py_len nodes = Ok 0 ->
  GetStatus_body nodes keys s = (Ok nodes, s)
  /\ (debug_flag s = false -> GetStatus nodes keys s = (Ok nodes, s))
  /\ (debug_flag s = true ->
        GetStatus nodes keys s = (Ok nodes, logged (depth_query ++ depth_query) s)).
Proof.
  intros Hc Hl. split; [by apply GetStatus_body_empty|].
  pose proof (stack_checker_balanced "GetStatus" (GetStatus_body nodes keys) s
                (body_entry s) nodes (GetStatus_body_empty _ _ _ Hc Hl)
                (body_entry_depth s)) as H.
  unfold GetStatus. rewrite H. unfold guard_exit, body_entry.
  split; intros ->; reflexivity.
Qed.

(** ** Connect *)

Lemma Connect_body_delay_only_fails (pre post delay : pyval) (model : string) (s : chan) :
  is_none delay = false ->
  exists e, Connect_body pre post PNone delay model s = (Raise e, s).
Proof.
  intros Hd. unfold Connect_body, bind, lift.
  destruct (py_len pre) as [n|e]; [|by eexists].
  destruct (py_len post) as [m|e]; [|by eexists].
  destruct (n =? m); cbn [negb]; [|by eexists].
  rewrite Hd. cbn [is_none negb andb]. by eexists.
Qed.

Lemma Connect_body_delay_only (pre post delay : pyval) (model : string) (s : chan) (n : Z) :
  is_none delay = false -> py_len pre = Ok n -> py_len post = Ok n ->
  Connect_body pre post PNone delay model s
  = (Raise (NESTError "Both 'params' and 'delay' have to be given."), s).
Proof.
  intros Hd Hp Hq. unfold Connect_body, bind, lift.
  rewrite Hp, Hq, Z.eqb_refl, Hd. reflexivity.
Qed.

(** C5: [Connect] with a delay and without params never returns: it
    raises.  When [pre] and [post] have the same length, as [Connect]
    requires, the error says that both have to be given, and neither the
    operand stack nor the engine has changed. *)
Theorem Connect_delay_without_params (pre post delay : pyval) (model : string) (s : chan) :
  is_none delay = false ->
  (exists e, fst (Connect pre post PNone delay model s) = Raise e)
  /\ (forall n, py_len pre = Ok n -> py_len post = Ok n ->
        Connect_body pre post PNone delay model s
        = (Raise (NESTError "Both 'params' and 'delay' have to be given."), s)
        /\ Connect pre post PNone delay model s
           = (Raise (NESTError "Both 'params' and 'delay' have to be given."), body_entry s)).
Proof.
  intros Hd. split.
  - destruct (Connect_body_delay_only_fails pre post delay model (body_entry s) Hd) as [e He].
    exists e. unfold Connect. by rewrite (stack_checker_raise _ _ _ _ _ He).
  - intros n Hp Hq. split; [by apply (Connect_body_delay_only _ _ _ _ _ n)|].
    unfold Connect. apply stack_checker_raise.
    by apply (Connect_body_delay_only _ _ _ _ _ n).
Qed.

(** ** Create *)

Lemma py_range_length (lo hi : Z) : length (py_range lo hi) = Z.to_nat (hi - lo).
Proof. unfold py_range. by rewrite length_map, length_seq. Qed.

Lemma py_range_lookup (lo hi i : Z) :
  0 <= i < hi - lo -> py_range lo hi !! Z.to_nat i = Some (PInt (lo + i)).
Proof.
  intros Hi. unfold py_range. rewrite list_lookup_fmap, lookup_seq_lt by lia.
  simpl. by rewrite Z2Nat.id by lia.
Qed.

Lemma py_range_last (lo hi : Z) :
  lo < hi -> last (py_range lo hi) = Some (PInt (hi - 1)).
Proof.
  intros H. rewrite last_lookup, py_range_length.
  replace (Nat.pred (Z.to_nat (hi - lo))) with (Z.to_nat (hi - lo - 1)) by lia.
  rewrite py_range_lookup by lia. do 2 f_equal. lia.
Qed.

(** [Create] up to the identifiers: the arguments are pushed, the
    command is run, the last identifier is popped and the range is
    built. *)
Lemma Create_body_creation (model : string) (n : Z) (params : pyval) (s : chan)
    (last_gid : Z) (stk : list pyval) (k : engine) :
  sli (create_cmd model params) (PInt n :: create_pushed params ++ stack s, kernel s)
  = (Ok tt, (PInt last_gid :: stk, k)) ->
  Create_body model n params s
  = ((if per_node_params params then
        try_except (SetStatus (PTuple (py_range (last_gid - n + 1) (last_gid + 1))) params PNone
                    ;;; ret tt)
                   (fun e => warn (create_warning
                                     (PTuple (py_range (last_gid - n + 1) (last_gid + 1))))
                             ;;; raise e)
      else ret tt) ;;;
     ret (PTuple (py_range (last_gid - n + 1) (last_gid + 1))))
    (after_creation s (create_cmd model params) n (create_pushed params) stk k).
Proof.
  intros Hsli. unfold Create_body, create_cmd, create_pushed, per_node_params in *.
  destruct (isinstance params [TyDict]) eqn:Hdict.
  - unfold bind at 1. unfold bind at 1. cbn [sps ret].
    unfold bind at 1. cbn [sps]. unfold bind at 1. unfold sr at 1. cbn [stack kernel].
    simpl app in Hsli. rewrite Hsli. reflexivity.
  - unfold bind at 1. cbn [ret].
    unfold bind at 1. cbn [sps]. unfold bind at 1. unfold sr at 1. cbn [stack kernel].
    simpl app in Hsli. rewrite Hsli. reflexivity.
Qed.

(** C3: for a positive [n], when the interpreter's command takes the
    pushed arguments and leaves the last identifier [last_gid] on the
    stack (and the later [SetStatus], if [params] calls for one,
    returns), [Create] returns the tuple of the [n] consecutive
    identifiers [last_gid - n + 1, ..., last_gid], built from
    [last_gid] alone. *)
Theorem Create_returns_range (model : string) (n : Z) (params : pyval) (s s2 : chan)
    (last_gid : Z) (stk : list pyval) (k : engine) :
  0 < n ->
  sli (create_cmd model params) (PInt n :: create_pushed params ++ stack s, kernel s)
  = (Ok tt, (PInt last_gid :: stk, k)) ->
  (if per_node_params params
   then exists r,
          SetStatus (PTuple (py_range (last_gid - n + 1) (last_gid + 1))) params PNone
            (after_creation (body_entry s) (create_cmd model params) n
               (create_pushed params) stk k)
          = (Ok r, s2)
   else s2 = after_creation (body_entry s) (create_cmd model params) n
               (create_pushed params) stk k) ->
  (debug_flag s = true -> depth s2 = depth s) ->
  Create model n params s
  = (Ok (PTuple (py_range (last_gid - n + 1) (last_gid + 1))), guard_exit (debug_flag s) s2)
  /\ length (py_range (last_gid - n + 1) (last_gid + 1)) = Z.to_nat n
  /\ (forall i, 0 <= i < n ->
        py_range (last_gid - n + 1) (last_gid + 1) !! Z.to_nat i
        = Some (PInt (last_gid - n + 1 + i)))
  /\ last (py_range (last_gid - n + 1) (last_gid + 1)) = Some (PInt last_gid).
Proof.
  intros Hn Hsli Hset Hbal.
  assert (Hbody : Create_body model n params (body_entry s)
                  = (Ok (PTuple (py_range (last_gid - n + 1) (last_gid + 1))), s2)).
  { rewrite (Create_body_creation model n params (body_entry s) last_gid stk k).
    - destruct (per_node_params params).
      + destruct Hset as [r Hr]. unfold bind at 1, try_except. unfold bind at 1.
        rewrite Hr. reflexivity.
      + subst s2. reflexivity.
    - unfold body_entry. destruct (debug_flag s); exact Hsli. }
  split; [|split; [|split]].
  - unfold Create. destruct (debug_flag s) eqn:Hd.
    + rewrite <- Hd. apply stack_checker_balanced; [exact Hbody | by apply Hbal].
    + rewrite stack_checker_off by exact Hd.
      unfold body_entry in Hbody. rewrite Hd in Hbody. exact Hbody.
  - rewrite py_range_length. f_equal. lia.
  - intros i Hi. apply py_range_lookup. lia.
  - rewrite py_range_last by lia. do 2 f_equal. lia.
Qed.

(** C4: when the elements were created and the [SetStatus] that follows
    raises [e] in state [s2], [Create] raises the same [e]; the state it
    leaves is [s2] with one warning added, whose text holds the created
    identifiers.  No call is made on the channel after the failure, so
    the engine is as [SetStatus] left it and the created elements are
    still there. *)
Theorem Create_setstatus_failure (model : string) (n : Z) (params : pyval) (s s2 : chan)
    (last_gid : Z) (stk : list pyval) (k : engine) (e : exn) :
  per_node_params params = true ->
  sli (create_cmd model params) (PInt n :: create_pushed params ++ stack s, kernel s)
  = (Ok tt, (PInt last_gid :: stk, k)) ->
  SetStatus (PTuple (py_range (last_gid - n + 1) (last_gid + 1))) params PNone
    (after_creation (body_entry s) (create_cmd model params) n (create_pushed params) stk k)
  = (Raise e, s2) ->
  Create model n params s
  = (Raise e,
     with_warning (create_warning (PTuple (py_range (last_gid - n + 1) (last_gid + 1)))) s2)
  /\ contains (py_str (PTuple (py_range (last_gid - n + 1) (last_gid + 1))))
       (create_warning (PTuple (py_range (last_gid - n + 1) (last_gid + 1)))) = true
  /\ kernel (with_warning (create_warning (PTuple (py_range (last_gid - n + 1) (last_gid + 1)))) s2)
     = kernel s2
  /\ calls (with_warning (create_warning (PTuple (py_range (last_gid - n + 1) (last_gid + 1)))) s2)
     = calls s2.
Proof.
  intros Hp Hsli Hset. split; [|split; [|split; reflexivity]].
  - unfold Create. apply stack_checker_raise.
    rewrite (Create_body_creation model n params (body_entry s) last_gid stk k).
    + rewrite Hp. unfold bind at 1, try_except. unfold bind at 1. rewrite Hset.
      reflexivity.
    + unfold body_entry. destruct (debug_flag s); exact Hsli.
  - unfold create_warning. apply contains_app_r, contains_app_r, contains_prefix.
Qed.

(** * Further properties of the code *)

(** ** broadcast: the shape of what it returns *)

Lemma seq_repeat_length {A : Type} (n : Z) (l : list A) :
  length (seq_repeat n l) = (Z.to_nat n * length l)%nat.
Proof.
  unfold seq_repeat. induction (Z.to_nat n) as [|k IH]; simpl; [reflexivity|].
  by rewrite length_app, IH.
Qed.

Lemma append_length (a b : string) :
  String.length (a +:+ b) = (String.length a + String.length b)%nat.
Proof.
  induction a as [|c a IH]; [reflexivity|].
  change (String c a +:+ b) with (String c (a +:+ b)). simpl. by rewrite IH.
Qed.

Lemma str_repeat_length (n : nat) (s : string) :
  String.length (str_repeat n s) = (n * String.length s)%nat.
Proof.
  induction n as [|k IH]; simpl; [reflexivity|].
  by rewrite append_length, IH.
Qed.

Lemma append_empty_r (s : string) : s +:+ "" = s.
Proof.
  induction s as [|c s IH]; [reflexivity|].
  change (String c s +:+ "") with (String c (s +:+ "")). by rewrite IH.
Qed.

Lemma py_mul_repeatable (n : Z) (v r : pyval) :
  0 <= n -> is_repeatable v = true -> py_len v = Ok 1 -> py_mul n v = Ok r ->
  py_len r = Ok n /\ is_repeatable r = true /\ (n = 1 -> r = v).
Proof.
  intros Hn Hrep Hlen Hmul.
  destruct v; try discriminate; simpl in Hlen, Hmul;
    injection Hlen as Hlen; injection Hmul as <-; simpl.
  - split; [f_equal; rewrite str_repeat_length; lia|]. split; [reflexivity|].
    intros ->. simpl. by rewrite append_empty_r.
  - split; [f_equal; rewrite seq_repeat_length; lia|]. split; [reflexivity|].
    intros ->. unfold seq_repeat. simpl. by rewrite app_nil_r.
  - split; [f_equal; rewrite seq_repeat_length; lia|]. split; [reflexivity|].
    intros ->. unfold seq_repeat. simpl. by rewrite app_nil_r.
Qed.

(** What a broadcast result is, for an item whose type is in the
    allow-list, or that is a tuple, list or string, or whose length is
    not 1: it has the required length, and it is again a tuple, list or
    string or has a length other than 1. *)
Lemma broadcast_scoped (item r : pyval) (n : Z) (atomics : list pytype) (name : string) :
  0 <= n ->
  isinstance item atomics = true \/ is_repeatable item = true \/ py_len item <> Ok 1 ->
  broadcast item n atomics name = Ok r ->
  py_len r = Ok n /\ (is_repeatable r = true \/ n <> 1).
Proof.
  intros Hn Hscope. unfold broadcast.
  destruct (isinstance item atomics) eqn:Hi.
  - intros [= <-]. split; [|by left]. simpl. rewrite seq_repeat_length. simpl. f_equal. lia.
  - destruct (py_len item) as [m|e] eqn:Hlen; [|discriminate].
    destruct (Z.eqb_spec m 1) as [->|Hm1].
    + destruct Hscope as [H|[Hrep|H]]; [discriminate | | congruence].
      intros Hmul. destruct (py_mul_repeatable n item r Hn Hrep Hlen Hmul) as (H1 & H2 & _).
      split; [exact H1 | by left].
    + destruct (Z.eqb_spec m n) as [->|Hmn]; simpl; [|discriminate].
      intros [= <-]. split; [exact Hlen | by right].
Qed.

(** X1: for an item whose type is in the allow-list, or that is a
    tuple, a list or a string, or whose length is not 1, what
    [broadcast] returns for a required length [n >= 0] has length
    [n]. *)
Theorem broadcast_result_length (item r : pyval) (n : Z) (atomics : list pytype)
    (name : string) :
  0 <= n ->
  isinstance item atomics = true \/ is_repeatable item = true \/ py_len item <> Ok 1 ->
  broadcast item n atomics name = Ok r ->
  py_len r = Ok n.
Proof. intros Hn Hscope Hb. by destruct (broadcast_scoped _ _ _ _ _ Hn Hscope Hb). Qed.

(** X2: for such an item broadcasting is idempotent: a result whose own
    type is not in the allow-list is returned as it is when broadcast
    again to the same length. *)
Theorem broadcast_idempotent (item r : pyval) (n : Z) (atomics : list pytype)
    (name name' : string) :
  0 <= n ->
  isinstance item atomics = true \/ is_repeatable item = true \/ py_len item <> Ok 1 ->
  broadcast item n atomics name = Ok r ->
  isinstance r atomics = false ->
  broadcast r n atomics name' = Ok r.
Proof.
  intros Hn Hscope Hb Hr.
  destruct (broadcast_scoped _ _ _ _ _ Hn Hscope Hb) as [Hlen Hshape].
  unfold broadcast. rewrite Hr, Hlen.
  destruct (Z.eqb_spec n 1) as [->|Hn1].
  - destruct Hshape as [Hrep|]; [|done].
    destruct (py_mul 1 r) as [r'|e] eqn:Hmul.
    + destruct (py_mul_repeatable 1 r r' Hn Hrep Hlen Hmul) as (_ & _ & Heq).
      by rewrite Heq.
    + destruct r; discriminate.
  - by rewrite Z.eqb_refl.
Qed.

(** ** The stack checker: exceptions and nesting *)

(** X3: in diagnostic mode, when the wrapped function raises, the
    wrapper passes the exception on as it is and stops there: the state
    is the one the function left, with no second depth query and no
    report of an imbalance, whatever the function left on the stack. *)
Theorem stack_checker_propagates {A : Type} (name : string) (f : M chan A)
    (s s' : chan) (e : exn) :
  debug_flag s = true ->
  f (logged depth_query s) = (Raise e, s') ->
  stack_checker_func name f s = (Raise e, s').
Proof.
  intros Hd Hf. apply stack_checker_raise. unfold body_entry. by rewrite Hd.
Qed.

Lemma stack_checker_return_balanced {A : Type} (name : string) (f : M chan A)
    (s s' : chan) (r : A) :
  f (body_entry s) = (Ok r, s') ->
  (debug_flag s = true -> depth s' = depth s) ->
  stack_checker_func name f s = (Ok r, guard_exit (debug_flag s) s').
Proof.
  intros Hf Hd. rewrite (stack_checker_return name f s s' r Hf).
  destruct (debug_flag s); [|reflexivity].
  rewrite Hd by reflexivity. by rewrite Z.eqb_refl.
Qed.

Lemma guard_exit_depth (dbg : bool) (s : chan) : depth (guard_exit dbg s) = depth s.
Proof. by destruct dbg. Qed.

Lemma body_entry_debug (s : chan) : debug_flag (body_entry s) = debug_flag s.
Proof. unfold body_entry. destruct (debug_flag s) eqn:E; [exact E | exact E]. Qed.

Lemma body_entry_stack (s : chan) : stack (body_entry s) = stack s.
Proof. unfold body_entry. by destruct (debug_flag s). Qed.

Lemma body_entry_warned (s : chan) : warned (body_entry s) = warned s.
Proof. unfold body_entry. by destruct (debug_flag s). Qed.

Lemma body_entry_kernel (s : chan) : kernel (body_entry s) = kernel s.
Proof. unfold body_entry. by destruct (debug_flag s). Qed.

Lemma body_entry_calls (s : chan) (ev : event) :
  In ev (calls s) -> In ev (calls (body_entry s)).
Proof.
  unfold body_entry. destruct (debug_flag s); [|done].
  intros H. simpl. auto.
Qed.

(** X4: checks nest: when a function returns [r] and leaves the depth of
    the stack as it was at its start, the function wrapped twice returns
    [r] as well, in either mode; this is the situation of a decorated
    operation that calls another one. *)
Theorem stack_checker_nested {A : Type} (outer inner : string) (f : M chan A)
    (s s' : chan) (r : A) :
  f (body_entry (body_entry s)) = (Ok r, s') ->
  depth s' = depth s ->
  stack_checker_func outer (stack_checker_func inner f) s
  = (Ok r, guard_exit (debug_flag s) (guard_exit (debug_flag s) s')).
Proof.
  intros Hf Hd.
  apply stack_checker_balanced.
  - rewrite <- (body_entry_debug s).
    apply stack_checker_balanced; [exact Hf|].
    by rewrite body_entry_depth.
  - by rewrite guard_exit_depth.
Qed.

(** ** Connect and its relatives *)

Lemma Connect_body_mismatch (pre post params delay : pyval) (model : string) (s : chan)
    (n m : Z) :
  py_len pre = Ok n -> py_len post = Ok m -> n <> m ->
  Connect_body pre post params delay model s
  = (Raise (NESTError "pre and post have to be the same length"), s).
Proof.
  intros Hp Hq Hne. unfold Connect_body, bind, lift. rewrite Hp, Hq.
  apply Z.eqb_neq in Hne. by rewrite Hne.
Qed.

(** X5: when [pre] and [post] differ in length, [Connect] raises the
    NESTError that says so, whatever [params] and [delay] are, before
    anything is put on the channel. *)
Theorem Connect_unequal_lengths (pre post params delay : pyval) (model : string)
    (s : chan) (n m : Z) :
  py_len pre = Ok n -> py_len post = Ok m -> n <> m ->
  Connect_body pre post params delay model s
  = (Raise (NESTError "pre and post have to be the same length"), s)
  /\ Connect pre post params delay model s
     = (Raise (NESTError "pre and post have to be the same length"), body_entry s).
Proof.
  intros Hp Hq Hne. split; [by apply (Connect_body_mismatch _ _ _ _ _ _ n m)|].
  apply stack_checker_raise. by apply (Connect_body_mismatch _ _ _ _ _ _ n m).
Qed.

Lemma connect_loop (model : string) (ps : list (pyval * pyval)) :
  (forall s d stk k, (s, d) ∈ ps ->
     exists k', sli (connect_cmd model) (d :: s :: stk, k) = (Ok tt, (stk, k'))) ->
  forall s, exists k',
    for_each ps (fun '(s, d) => sps s ;;; sps d ;;; sr (connect_cmd model)) s
    = (Ok tt, {| stack := stack s; kernel := k'; debug_flag := debug_flag s;
                 calls := connect_calls model ps ++ calls s; warned := warned s |}).
Proof.
  induction ps as [|[a b] ps IH]; intros Hsli s.
  - exists (kernel s). by destruct s.
  - destruct (Hsli a b (stack s) (kernel s)) as [k1 Hk1]; [left|].
    destruct (IH (fun s d stk k Hin => Hsli s d stk k (list_elem_of_further _ _ _ Hin))
                 {| stack := stack s; kernel := k1; debug_flag := debug_flag s;
                    calls := EvRun (connect_cmd model) :: EvPush b :: EvPush a :: calls s;
                    warned := warned s |}) as [k' Hk'].
    exists k'. cbn [for_each]. unfold bind at 1. unfold bind at 1. cbn [sps].
    unfold bind at 1. cbn [sps]. unfold sr at 1. cbn [stack kernel]. rewrite Hk1.
    cbn [calls debug_flag warned]. rewrite Hk'. cbn [stack debug_flag warned calls].
    do 2 f_equal. unfold connect_calls. cbn [rev]. rewrite flat_map_app. cbn [flat_map].
    rewrite app_nil_r, <- app_assoc. reflexivity.
Qed.

(** X6: a plain [Connect] of equally long [pre] and [post], on an
    interpreter whose connect command takes a source and a target off
    the stack, returns [None], leaves the operand stack as it was, and
    has made exactly three calls per pair, in order: push the source,
    push the target, run the command.  It passes the stack check in
    either mode. *)
Theorem Connect_plain_trace (pre post : pyval) (model : string) (s : chan) (n : Z)
    (ss ds : list pyval) :
  py_len pre = Ok n -> py_len post = Ok n ->
  py_iter pre = Ok ss -> py_iter post = Ok ds ->
  (forall a b stk k, (a, b) ∈ combine ss ds ->
     exists k', sli (connect_cmd model) (b :: a :: stk, k) = (Ok tt, (stk, k'))) ->
  exists k',
    Connect pre post PNone PNone model s
    = (Ok PNone,
       guard_exit (debug_flag s)
         {| stack := stack s; kernel := k'; debug_flag := debug_flag s;
            calls := connect_calls model (combine ss ds) ++ calls (body_entry s);
            warned := warned s |}).
Proof.
  intros Hp Hq Hss Hds Hsli.
  destruct (connect_loop model (combine ss ds) Hsli (body_entry s)) as [k' Hk'].
  exists k'. unfold Connect. apply stack_checker_balanced; [|reflexivity].
  unfold Connect_body. unfold bind at 1, lift at 1. rewrite Hp.
  unfold bind at 1, lift at 1. rewrite Hq, Z.eqb_refl. cbn [negb is_none andb].
  unfold bind at 1, lift at 1. rewrite Hss.
  unfold bind at 1, lift at 1. rewrite Hds.
  unfold bind at 1. rewrite Hk'.
  by rewrite body_entry_stack, body_entry_debug, body_entry_warned.
Qed.

Lemma stack_checker_ext {A : Type} (name : string) (f g : M chan A) (s : chan) :
  (forall s0, f s0 = g s0) -> stack_checker_func name f s = stack_checker_func name g s.
Proof.
  intros Hfg. unfold stack_checker_func, bind, get_debug.
  destruct (debug_flag s); cbn [negb]; [|apply Hfg].
  destruct (sr "count" s) as [[[]|e] s1]; [|reflexivity].
  destruct (spp s1) as [[v|e] s2]; [|reflexivity].
  by rewrite Hfg.
Qed.

(** X7: with no [delay] and a [params] that is a dictionary, a tuple, a
    list or a string, or whose length is not 1: once [params]
    broadcasts to the length of [pre], what it broadcasts to has that
    length, so that the length test that follows passes, and [Connect]
    is the stack-checked loop over the pairs and their parameters. *)
Theorem Connect_params_reaches_loop (pre post params bparams : pyval) (model : string)
    (s : chan) (n : Z) (ss ds ps : list pyval) :
  is_none params = false ->
  isinstance params [TyDict] = true \/ is_repeatable params = true
  \/ py_len params <> Ok 1 ->
  py_len pre = Ok n -> py_len post = Ok n ->
  broadcast params n [TyDict] "params" = Ok bparams ->
  py_iter pre = Ok ss -> py_iter post = Ok ds -> py_iter bparams = Ok ps ->
  py_len bparams = Ok n
  /\ Connect pre post params PNone model s
     = stack_checker_func "Connect"
         (for_each (combine (combine ss ds) ps)
            (fun '(s, d, p) => sps s ;;; sps d ;;; sps p ;;; sr (connect_cmd model)) ;;;
          ret PNone) s.
Proof.
  intros Hn Hscope Hp Hq Hb Hss Hds Hps.
  assert (Hlen : py_len bparams = Ok n).
  { apply (broadcast_scoped params _ _ [TyDict] "params"); [|exact Hscope|exact Hb].
    destruct pre; simpl in Hp; try discriminate; injection Hp as <-; lia. }
  split; [exact Hlen|].
  unfold Connect. apply stack_checker_ext. intros s0.
  unfold Connect_body. unfold bind at 1, lift at 1. rewrite Hp.
  unfold bind at 1, lift at 1. rewrite Hq, Z.eqb_refl, Hn. cbn [negb is_none andb].
  unfold bind at 1, lift at 1. rewrite Hb.
  unfold bind at 1, lift at 1. rewrite Hlen, Z.eqb_refl. cbn [negb].
  unfold bind at 1, lift at 1. rewrite Hss.
  unfold bind at 1, lift at 1. rewrite Hds.
  unfold bind at 1, lift at 1. rewrite Hps. reflexivity.
Qed.

(** X8: with [params] given and no [delay], a [params] that does not
    broadcast to the length of [pre] makes [Connect] raise the error of
    [broadcast], a TypeError, before anything is put on the channel. *)
Theorem Connect_params_shape_error (pre post params : pyval) (model : string)
    (s : chan) (n : Z) (e : exn) :
  is_none params = false ->
  py_len pre = Ok n -> py_len post = Ok n ->
  broadcast params n [TyDict] "params" = Raise e ->
  Connect pre post params PNone model s = (Raise e, body_entry s).
Proof.
  intros Hn Hp Hq Hb. apply stack_checker_raise.
  unfold Connect_body, bind, lift. rewrite Hp, Hq, Z.eqb_refl, Hn. cbn [negb is_none andb].
  by rewrite Hb.
Qed.

Lemma xorb_none_cases (a b : pyval) :
  xorb (is_none a) (is_none b) = true ->
  is_none a && is_none b = false /\ negb (is_none a) && negb (is_none b) = false.
Proof. destruct (is_none a), (is_none b); simpl; intros; (split; congruence). Qed.

(** X9: [ConvergentConnect] with exactly one of [weight] and [delay]
    raises the NESTError that both have to be given, for every [pre] and
    [post] (their lengths are not looked at), before anything is put on
    the channel. *)
Theorem ConvergentConnect_partial (pre post weight delay : pyval) (model : string)
    (s : chan) :
  xorb (is_none weight) (is_none delay) = true ->
  ConvergentConnect pre post weight delay model s
  = (Raise (NESTError "Both 'weight' and 'delay' have to be given."), body_entry s).
Proof.
  intros H. apply xorb_none_cases in H as [H1 H2].
  apply stack_checker_raise. unfold ConvergentConnect_body. by rewrite H1, H2.
Qed.

(** X10: [DivergentConnect] with exactly one of [weight] and [delay]
    raises the NESTError that both have to be given, for every [pre] and
    [post], before anything is put on the channel. *)
Theorem DivergentConnect_partial (pre post weight delay : pyval) (model : string)
    (s : chan) :
  xorb (is_none weight) (is_none delay) = true ->
  DivergentConnect pre post weight delay model s
  = (Raise (NESTError "Both 'weight' and 'delay' have to be given."), body_entry s).
Proof.
  intros H. apply xorb_none_cases in H as [H1 H2].
  apply stack_checker_raise. unfold DivergentConnect_body. by rewrite H1, H2.
Qed.

Lemma convergent_loop (model : string) (pre : pyval) (ds : list pyval) :
  (forall d stk k, d ∈ ds ->
     exists k', sli (convergent_cmd model) (d :: pre :: stk, k) = (Ok tt, (stk, k'))) ->
  forall s, exists k',
    for_each ds (fun d => sps pre ;;; sps d ;;; sr (convergent_cmd model)) s
    = (Ok tt, {| stack := stack s; kernel := k'; debug_flag := debug_flag s;
                 calls := convergent_calls model pre ds ++ calls s; warned := warned s |}).
Proof.
  induction ds as [|b ds IH]; intros Hsli s.
  - exists (kernel s). by destruct s.
  - destruct (Hsli b (stack s) (kernel s)) as [k1 Hk1]; [left|].
    destruct (IH (fun d stk k Hin => Hsli d stk k (list_elem_of_further _ _ _ Hin))
                 {| stack := stack s; kernel := k1; debug_flag := debug_flag s;
                    calls := EvRun (convergent_cmd model) :: EvPush b :: EvPush pre :: calls s;
                    warned := warned s |}) as [k' Hk'].
    exists k'. cbn [for_each]. unfold bind at 1. unfold bind at 1. cbn [sps].
    unfold bind at 1. cbn [sps]. unfold sr at 1. cbn [stack kernel]. rewrite Hk1.
    cbn [calls debug_flag warned]. rewrite Hk'. cbn [stack debug_flag warned calls].
    do 2 f_equal. unfold convergent_calls. cbn [rev]. rewrite flat_map_app. cbn [flat_map].
    rewrite app_nil_r, <- app_assoc. reflexivity.
Qed.

(** X11: a plain [ConvergentConnect], on an interpreter whose command
    takes the sources and a target off the stack, returns [None], leaves
    the operand stack as it was, and has made three calls per element of
    [post]: push the whole of [pre], push the target, run the command.
    For an empty [post] it makes no call at all. *)
Theorem Convergent_fan_in_trace (pre post : pyval) (model : string) (s : chan)
    (ds : list pyval) :
  py_iter post = Ok ds ->
  (forall d stk k, d ∈ ds ->
     exists k', sli (convergent_cmd model) (d :: pre :: stk, k) = (Ok tt, (stk, k'))) ->
  (exists k',
     ConvergentConnect pre post PNone PNone model s
     = (Ok PNone,
        guard_exit (debug_flag s)
          {| stack := stack s; kernel := k'; debug_flag := debug_flag s;
             calls := convergent_calls model pre ds ++ calls (body_entry s);
             warned := warned s |}))
  /\ (ds = [] -> ConvergentConnect_body pre post PNone PNone model s = (Ok PNone, s)).
Proof.
  intros Hds Hsli. split.
  - destruct (convergent_loop model pre ds Hsli (body_entry s)) as [k' Hk'].
    exists k'. unfold ConvergentConnect. apply stack_checker_balanced; [|reflexivity].
    unfold ConvergentConnect_body. cbn [negb is_none andb].
    unfold bind at 1, lift at 1. rewrite Hds.
    unfold bind at 1. rewrite Hk'.
  by rewrite body_entry_stack, body_entry_debug, body_entry_warned.
  - intros ->. unfold ConvergentConnect_body, bind, lift. cbn [negb is_none andb].
    rewrite Hds. reflexivity.
Qed.

(** ** FindConnections *)

(** X12: [synapse_type] is an alias of [synapse_model]: giving the
    synapse model under one name or under the other is the same call. *)
Theorem FindConnections_alias (source target syn : pyval) (s : chan) :
  FindConnections source target PNone syn s = FindConnections source target syn PNone s.
Proof.
  unfold FindConnections, FindConnections_body. cbn [is_none negb andb].
  rewrite andb_false_r. by destruct syn.
Qed.

(** X13: giving both [synapse_model] and [synapse_type] raises a
    NESTError before anything is put on the channel. *)
Theorem FindConnections_both_names (source target synapse_model synapse_type : pyval)
    (s : chan) :
  is_none synapse_model = false -> is_none synapse_type = false ->
  FindConnections source target synapse_model synapse_type s
  = (Raise (NESTError "synapse_type is alias for synapse_model, cannot be used together."),
     body_entry s).
Proof.
  intros H1 H2. apply stack_checker_raise. unfold FindConnections_body. by rewrite H1, H2.
Qed.

Lemma map_result_length {A B : Type} (f : A -> result B) (l : list A) (l' : list B) :
  map_result f l = Ok l' -> length l' = length l.
Proof.
  revert l'. induction l as [|x l IH]; intros l'; simpl.
  - by intros [= <-].
  - destruct (f x); [|discriminate]. destruct (map_result f l); [|discriminate].
    intros [= <-]. simpl. f_equal. by apply IH.
Qed.

Lemma map_result_Forall {A B : Type} (f : A -> result B) (P : B -> Prop)
    (l : list A) (l' : list B) :
  (forall x y, f x = Ok y -> P y) -> map_result f l = Ok l' -> Forall P l'.
Proof.
  intros HP. revert l'. induction l as [|x l IH]; intros l'; simpl.
  - intros [= <-]. constructor.
  - destruct (f x) eqn:Hx; [|discriminate]. destruct (map_result f l); [|discriminate].
    intros [= <-]. constructor; [by apply (HP x) | by apply IH].
Qed.

Lemma decode_ok_shape (flat d : pyval) :
  decode flat = Ok d ->
  exists src thr sm prt,
    d = PDict [(PStr "source", PInt src); (PStr "target_thread", PInt thr);
               (PStr "synapse_modelid", PInt sm); (PStr "port", PInt prt)].
Proof.
  unfold decode. destruct (py_iter flat) as [l|e]; [|discriminate].
  destruct l as [|a [|b [|c [|d0 [|e0 [|x l]]]]]]; simpl; try discriminate.
  destruct (py_int a), (py_int c), (py_int d0), (py_int e0); try discriminate.
  intros [= <-]. by eexists _, _, _, _.
Qed.

(** X14: what [FindConnections] makes of the rows the interpreter left:
    when decoding succeeds the result is a tuple with one entry per row,
    in the same number, and every entry is a dictionary of the four
    integer fields source, target_thread, synapse_modelid and port. *)
Theorem decode_all_shape (popped r : pyval) :
  decode_all popped = Ok r ->
  exists rows ds,
    py_iter popped = Ok rows /\ r = PTuple ds /\ length ds = length rows
    /\ Forall (fun d => exists src thr sm prt,
                 d = PDict [(PStr "source", PInt src); (PStr "target_thread", PInt thr);
                            (PStr "synapse_modelid", PInt sm); (PStr "port", PInt prt)]) ds.
Proof.
  unfold decode_all. destruct (py_iter popped) as [rows|e]; [|discriminate].
  destruct (map_result decode rows) as [ds|e] eqn:Hm; [|discriminate].
  intros [= <-]. exists rows, ds. repeat split.
  - by apply (map_result_length decode).
  - apply (map_result_Forall decode _ rows); [|exact Hm]. apply decode_ok_shape.
Qed.

(** ** SetStatus and GetStatus: what is checked before the channel is used *)

(** X15: [SetStatus] and [GetStatus] on something that is not a tuple, a
    list or a range (a single identifier, a dictionary, a string) raise
    a TypeError before anything is put on the channel. *)
Theorem status_nodes_not_a_sequence (nodes params val keys : pyval) (s : chan) :
  is_coercible_to_sli_array nodes = false ->
  SetStatus nodes params val s
  = (Raise (TypeError "nodes must be a list of nodes or synapses"), body_entry s)
  /\ GetStatus nodes keys s
     = (Raise (TypeError "nodes must be a list of nodes or synapses"), body_entry s).
Proof.
  intros H. split; apply stack_checker_raise.
  - unfold SetStatus_body. by rewrite H.
  - unfold GetStatus_body. by rewrite H.
Qed.

(** X16: [SetStatus(nodes, name, val)] with a parameter name and a value
    that is not [None] is [SetStatus(nodes, {name: val})] when the value
    is a string, a dictionary or not iterable, and is [SetStatus] with
    the list of the dictionaries [{name: x}], one for each [x] of the
    value in order, when the value is another iterable. *)
Theorem SetStatus_name_value (nodes name val : pyval) (s : chan) :
  is_none val = false ->
  isinstance name [TyStr; TySLILiteral] = true ->
  (is_iterable val && negb (isinstance val [TyStr; TyDict]) = false ->
     SetStatus nodes name val s = SetStatus nodes (PDict [(name, val)]) PNone s)
  /\ (forall xs, is_iterable val && negb (isinstance val [TyStr; TyDict]) = true ->
        py_iter val = Ok xs ->
        SetStatus nodes name val s
        = SetStatus nodes (PList (map (fun x => PDict [(name, x)]) xs)) PNone s).
Proof.
  intros Hv Hn. split.
  - intros Hit. unfold SetStatus, SetStatus_body, set_status_expand.
    rewrite Hv, Hn, Hit. reflexivity.
  - intros xs Hit Hxs. unfold SetStatus, SetStatus_body, set_status_expand.
    rewrite Hv, Hn, Hit. cbn [negb is_none].
    f_equal. destruct (negb (is_coercible_to_sli_array nodes)); [reflexivity|].
    unfold bind, lift. destruct (py_len nodes) as [n|e]; [|reflexivity].
    rewrite Hxs. reflexivity.
Qed.

(** X17: on a non-empty sequence of nodes, a [params] that does not
    broadcast to the number of nodes makes [SetStatus] raise the error
    of [broadcast] before anything is put on the channel. *)
Theorem SetStatus_shape_error (nodes params : pyval) (s : chan) (n : Z) (e : exn) :
  is_coercible_to_sli_array nodes = true ->
  py_len nodes = Ok n -> n <> 0 ->
  broadcast params n [TyDict] "params" = Raise e ->
  SetStatus nodes params PNone s = (Raise e, body_entry s).
Proof.
  intros Hc Hl Hn Hb. apply stack_checker_raise.
  unfold SetStatus_body. rewrite Hc. cbn [negb]. unfold bind, lift. rewrite Hl.
  apply Z.eqb_neq in Hn. rewrite Hn. unfold set_status_expand. cbn [is_none negb].
  unfold ret. by rewrite Hb.
Qed.

(** X18: on a non-empty sequence of nodes, a [keys] that is neither
    [None], nor a name, nor an iterable makes [GetStatus] raise a
    TypeError before anything is put on the channel. *)
Theorem GetStatus_rejects_keys (nodes keys : pyval) (s : chan) (n : Z) :
  is_coercible_to_sli_array nodes = true ->
  py_len nodes = Ok n -> n <> 0 ->
  is_none keys = false ->
  isinstance keys [TyStr; TySLILiteral] = false ->
  is_iterable keys = false ->
  GetStatus nodes keys s
  = (Raise (TypeError "keys should be either a string or an iterable"), body_entry s).
Proof.
  intros Hc Hl Hn Hk1 Hk2 Hk3. apply stack_checker_raise.
  unfold GetStatus_body. rewrite Hc. cbn [negb]. unfold bind, lift. rewrite Hl.
  apply Z.eqb_neq in Hn. rewrite Hn. unfold get_status_cmd. by rewrite Hk1, Hk2, Hk3.
Qed.

(** X19: [is_sequence_of_connections] raises StopIteration on an empty
    sequence, which its [except TypeError] does not catch; on a tuple,
    list or range that is not empty it always answers.  [SetStatus] and
    [GetStatus] call it only after their test for emptiness. *)
Theorem is_sequence_of_connections_total (seq : pyval) :
  (py_iter seq = Ok [] -> is_sequence_of_connections seq = Raise StopIteration)
  /\ (forall n, is_coercible_to_sli_array seq = true -> py_len seq = Ok n -> n <> 0 ->
        exists b, is_sequence_of_connections seq = Ok b).
Proof.
  split.
  - intros H. unfold is_sequence_of_connections. by rewrite H.
  - intros n Hc Hl Hn. unfold is_sequence_of_connections.
    assert (Hfirst : exists x l, py_iter seq = Ok (x :: l)).
    { destruct seq; try discriminate; simpl in Hl; injection Hl as <-.
      - destruct l; [done | by eexists _, _].
      - destruct l; [done | by eexists _, _].
      - simpl. destruct (Z.to_nat (hi - lo)) eqn:E; [lia|]. simpl. by eexists _, _. }
    destruct Hfirst as (x & l & ->).
    destruct (isinstance x [TyDict]); [by eexists|].
    destruct x; simpl; by eexists.
Qed.

(** ** Create: no nodes, and parameters checked late *)

Lemma py_range_empty (lo hi : Z) : hi <= lo -> py_range lo hi = [].
Proof. intros H. unfold py_range. by replace (Z.to_nat (hi - lo)) with 0%nat by lia. Qed.

Lemma SetStatus_empty_run (nodes params val : pyval) (s : chan) :
  is_coercible_to_sli_array nodes = true -> py_len nodes = Ok 0 ->
  SetStatus nodes params val s = (Ok PNone, guard_exit (debug_flag s) (body_entry s)).
Proof.
  intros Hc Hl. apply stack_checker_balanced.
  - by apply SetStatus_body_empty.
  - apply body_entry_depth.
Qed.

Lemma Create_body_no_nodes (model : string) (n : Z) (params : pyval) (s : chan)
    (last_gid : Z) (stk : list pyval) (k : engine) :
  n <= 0 ->
  sli (create_cmd model params) (PInt n :: create_pushed params ++ stack s, kernel s)
  = (Ok tt, (PInt last_gid :: stk, k)) ->
  Create_body model n params s
  = (Ok (PTuple []),
     if per_node_params params && debug_flag s
     then logged (depth_query ++ depth_query)
            (after_creation s (create_cmd model params) n (create_pushed params) stk k)
     else after_creation s (create_cmd model params) n (create_pushed params) stk k).
Proof.
  intros Hn Hsli.
  rewrite (Create_body_creation model n params s last_gid stk k Hsli).
  rewrite py_range_empty by lia.
  destruct (per_node_params params); [|reflexivity].
  unfold bind at 1, try_except. unfold bind at 1.
  rewrite SetStatus_empty_run by reflexivity.
  assert (Hd : debug_flag (after_creation s (create_cmd model params) n
                               (create_pushed params) stk k) = debug_flag s)
    by reflexivity.
  unfold guard_exit, body_entry. rewrite Hd. cbn [andb].
  by destruct (debug_flag s).
Qed.

(** X20: for [n <= 0], when the interpreter's command takes the pushed
    arguments and leaves an identifier on the stack, [Create] returns
    the empty tuple for every [params] (in diagnostic mode provided the
    command left the stack, under the identifier, as deep as it was
    before the call): per-node parameters go to [SetStatus] on no nodes,
    which does nothing, so they are not even checked. *)
Theorem Create_no_nodes (model : string) (n : Z) (params : pyval) (s : chan)
    (last_gid : Z) (stk : list pyval) (k : engine) :
  n <= 0 ->
  sli (create_cmd model params) (PInt n :: create_pushed params ++ stack s, kernel s)
  = (Ok tt, (PInt last_gid :: stk, k)) ->
  (debug_flag s = true -> length stk = length (stack s)) ->
  Create model n params s
  = (Ok (PTuple []),
     guard_exit (debug_flag s)
       (if per_node_params params && debug_flag s
        then logged (depth_query ++ depth_query)
               (after_creation (body_entry s) (create_cmd model params) n
                  (create_pushed params) stk k)
        else after_creation (body_entry s) (create_cmd model params) n
               (create_pushed params) stk k)).
Proof.
  intros Hn Hsli Hbal.
  assert (Hbody := Create_body_no_nodes model n params (body_entry s) last_gid stk k Hn).
  rewrite body_entry_stack, body_entry_kernel, body_entry_debug in Hbody.
  specialize (Hbody Hsli).
  unfold Create. apply stack_checker_return_balanced; [exact Hbody|].
  intros Hd. specialize (Hbal Hd). unfold depth.
  destruct (per_node_params params && debug_flag s); cbn [logged stack after_creation];
    by rewrite Hbal.
Qed.

Lemma SetStatus_broadcast_fails (nodes params : pyval) (s : chan) (n : Z) (e : exn) :
  is_coercible_to_sli_array nodes = true ->
  py_len nodes = Ok n -> n <> 0 ->
  broadcast params n [TyDict] "params" = Raise e ->
  SetStatus nodes params PNone s = (Raise e, body_entry s).
Proof.
  intros Hc Hl Hn Hb. apply stack_checker_raise.
  unfold SetStatus_body. rewrite Hc. cbn [negb]. unfold bind, lift. rewrite Hl.
  apply Z.eqb_neq in Hn. rewrite Hn. unfold set_status_expand. cbn [is_none negb].
  unfold ret. by rewrite Hb.
Qed.

(** X21: per-node parameters are checked only after the nodes exist:
    when [params] does not broadcast to [n], [Create] has already run
    the creation command; it then raises the error of [broadcast], warns
    with the new identifiers, and the engine is as the creation left it. *)
Theorem Create_checks_params_late (model : string) (n : Z) (params : pyval) (s : chan)
    (last_gid : Z) (stk : list pyval) (k : engine) (e : exn) :
  0 < n ->
  per_node_params params = true ->
  sli (create_cmd model params) (PInt n :: create_pushed params ++ stack s, kernel s)
  = (Ok tt, (PInt last_gid :: stk, k)) ->
  broadcast params n [TyDict] "params" = Raise e ->
  exists s',
    Create model n params s = (Raise e, s')
    /\ kernel s' = k
    /\ warned s'
       = create_warning (PTuple (py_range (last_gid - n + 1) (last_gid + 1))) :: warned s
    /\ In (EvRun (create_cmd model params)) (calls s').
Proof.
  intros Hn Hp Hsli Hb.
  exists (with_warning (create_warning (PTuple (py_range (last_gid - n + 1) (last_gid + 1))))
            (body_entry (after_creation (body_entry s) (create_cmd model params) n
                           (create_pushed params) stk k))).
  split; [|split; [|split]].
  - unfold Create. apply stack_checker_raise.
    rewrite (Create_body_creation model n params (body_entry s) last_gid stk k)
      by (rewrite body_entry_stack, body_entry_kernel; exact Hsli).
    rewrite Hp. unfold bind at 1, try_except. unfold bind at 1.
    rewrite (SetStatus_broadcast_fails _ _ _ n e); [reflexivity|reflexivity| |lia|exact Hb].
    simpl. rewrite py_range_length. f_equal. lia.
  - cbn [with_warning kernel]. by rewrite body_entry_kernel.
  - cbn [with_warning warned]. rewrite body_entry_warned. cbn [after_creation warned].
    by rewrite body_entry_warned.
  - cbn [with_warning calls]. apply body_entry_calls. simpl. tauto.
Qed.

(** X22: the identifiers [Create] builds, [lo, ..., hi - 1], pass
    [is_sequence_of_gids] exactly when there are none or the first one
    is not negative. *)
Theorem created_gids_are_gids (lo hi : Z) :
  is_sequence_of_gids (py_range lo hi) = true <-> hi <= lo \/ 0 <= lo.
Proof.
  unfold is_sequence_of_gids, py_range. rewrite forallb_forall. split.
  - intros H. destruct (Z_le_gt_dec hi lo) as [Hle|Hgt]; [by left|right].
    specialize (H (PInt lo)). simpl in H. apply Z.leb_le, H.
    apply in_map_iff. exists 0%nat. split; [f_equal; lia|].
    apply in_seq. lia.
  - intros H x Hx. apply in_map_iff in Hx as (i & <- & Hi). apply in_seq in Hi.
    simpl. apply Z.leb_le. lia.
Qed.

(** ** configure_fx.py: object file names *)

Lemma prefix_dot_c (ch : ascii) (rest : string) :
  String.prefix ".c" (String ch rest) = Ascii.eqb ch "."%char && starts_c rest.
Proof.
  cbn [String.prefix]. destruct (ascii_dec "." ch) as [<-|Hne].
  - rewrite Ascii.eqb_refl. cbn [andb].
    destruct rest as [|c r]; [reflexivity|]. cbn [starts_c String.prefix].
    destruct (ascii_dec "c" c) as [<-|Hc].
    + rewrite Ascii.eqb_refl. by destruct r.
    + symmetry. apply Ascii.eqb_neq. congruence.
  - symmetry. apply andb_false_intro1. apply Ascii.eqb_neq. congruence.
Qed.

Lemma contains_dot_c_cons (ch : ascii) (rest : string) :
  contains ".c" (String ch rest)
  = (Ascii.eqb ch "."%char && starts_c rest) || contains ".c" rest.
Proof. cbn [contains]. by rewrite prefix_dot_c. Qed.

Lemma contains_dot_c_dot_o (rest : string) :
  contains ".c" (".o" +:+ rest) = contains ".c" rest.
Proof.
  change (".o" +:+ rest) with (String "." (String "o" rest)).
  rewrite !contains_dot_c_cons. reflexivity.
Qed.

Lemma sub_ending_invariant (n : nat) :
  forall fn, (String.length fn <= n)%nat ->
    contains ".c" (sub_ending fn) = false
    /\ starts_c (sub_ending fn) = starts_c fn.
Proof.
  induction n as [|n IH]; intros fn Hlen.
  - destruct fn; [split; reflexivity | simpl in Hlen; lia].
  - destruct fn as [|ch rest]; [split; reflexivity|].
    simpl in Hlen. cbn [sub_ending].
    destruct (Ascii.eqb_spec ch ".") as [->|Hdot].
    + destruct rest as [|c1 r1]; [split; reflexivity|].
      simpl in Hlen.
      destruct (Ascii.eqb_spec c1 "c") as [->|Hc1].
      * assert (Hr1 : contains ".c" (".o" +:+ sub_ending r1) = false)
          by (rewrite contains_dot_c_dot_o; apply IH; lia).
        destruct r1 as [|c2 r2]; [split; reflexivity|].
        simpl in Hlen.
        assert (Hr2 : contains ".c" (".o" +:+ sub_ending r2) = false)
          by (rewrite contains_dot_c_dot_o; apply IH; lia).
        destruct (Ascii.eqb c2 "c"); [split; [exact Hr2 | reflexivity]|].
        destruct (Ascii.eqb c2 "p"); [|split; [exact Hr1 | reflexivity]].
        destruct r2 as [|c3 r3]; [split; [exact Hr1 | reflexivity]|].
        simpl in Hlen.
        destruct (Ascii.eqb c3 "p"); [|split; [exact Hr1 | reflexivity]].
        split; [|reflexivity]. rewrite contains_dot_c_dot_o. apply IH. lia.
      * destruct (IH (String c1 r1)) as [Hc Hs]; [simpl; lia|].
        split; [|reflexivity].
        rewrite contains_dot_c_cons, Hc, Hs. cbn [starts_c].
        apply Ascii.eqb_neq in Hc1. by rewrite Hc1.
    + destruct (IH rest) as [Hc Hs]; [lia|].
      split; [|reflexivity].
      rewrite contains_dot_c_cons, Hc. apply Ascii.eqb_neq in Hdot. by rewrite Hdot.
Qed.

(** X23: no name that [get_object_from_source] returns holds a dot
    followed by the letter c: every source ending in the name has been
    replaced, and the replacing creates none. *)
Theorem get_object_from_source_no_dot_c (filelist : list string) :
  Forall (fun obj => contains ".c" obj = false) (get_object_from_source filelist).
Proof.
  unfold get_object_from_source. apply Forall_fmap, Forall_forall. intros fn _.
  apply (sub_ending_invariant (String.length fn)). lia.
Qed.

Lemma sub_ending_dot_free (name ending : string) :
  dot_free name = true -> sub_ending (name +:+ ending) = name +:+ sub_ending ending.
Proof.
  induction name as [|ch name IH]; intros H; [reflexivity|].
  simpl in H. apply andb_true_iff in H as [Hch Hname].
  change (String ch name +:+ ending) with (String ch (name +:+ ending)).
  cbn [sub_ending]. apply negb_true_iff in Hch. rewrite Hch.
  change (String ch name +:+ sub_ending ending)
    with (String ch (name +:+ sub_ending ending)).
  by rewrite IH.
Qed.

(** X24: a file name without a dot followed by [.cc], [.cpp] or [.c]
    becomes the name followed by [.o]; a name with no dot at all is left
    as it is. *)
Theorem sub_ending_source_names (name : string) :
  dot_free name = true ->
  sub_ending (name +:+ ".cc") = name +:+ ".o"
  /\ sub_ending (name +:+ ".cpp") = name +:+ ".o"
  /\ sub_ending (name +:+ ".c") = name +:+ ".o"
  /\ sub_ending name = name.
Proof.
  intros H. repeat split.
  - by rewrite sub_ending_dot_free.
  - by rewrite sub_ending_dot_free.
  - by rewrite sub_ending_dot_free.
  - rewrite <- (append_empty_r name) at 1. rewrite sub_ending_dot_free by exact H.
    simpl. apply append_empty_r.
Qed.

Lemma append_assoc (a b c : string) : (a +:+ b) +:+ c = a +:+ (b +:+ c).
Proof.
  induction a as [|ch a IH]; [reflexivity|].
  change (String ch a +:+ b) with (String ch (a +:+ b)).
  change (String ch (a +:+ b) +:+ c) with (String ch ((a +:+ b) +:+ c)).
  by rewrite IH.
Qed.

Lemma foldl_join (x : string) (rest : list string) :
  foldl (fun x y => x +:+ " " +:+ y) x rest = String.concat " " (x :: rest).
Proof.
  revert x. induction rest as [|y rest IH]; intros x; [reflexivity|].
  cbn [foldl]. rewrite IH. cbn [String.concat].
  destruct rest; [reflexivity|]. by rewrite append_assoc.
Qed.

(** X25: [Makefile.add_target] fails exactly when it is given no source
    file: [reduce] without an initial value raises TypeError on the empty
    list, before anything is written.  Otherwise the objects are listed
    in the order of the sources, separated by single blanks. *)
Theorem add_target_needs_sources (target_dir target_name : string)
    (source_files : list string) :
  ((exists e, add_target target_dir target_name source_files = Raise e)
   <-> source_files = [])
  /\ (source_files <> [] ->
      reduce_join (get_object_from_source source_files)
      = Ok (String.concat " " (map sub_ending source_files))).
Proof.
  unfold add_target, get_object_from_source. split; [split|].
  - destruct source_files; [reflexivity|]. simpl. by intros [e He].
  - intros ->. by eexists.
  - destruct source_files as [|f fs]; [done|]. intros _. simpl.
    by rewrite foldl_join.
Qed.

End Marshaller.

(** * The operations on the small interpreter *)

Lemma demo_count (stk : list pyval) (k : Z) :
  demo_sli "count" (stk, k) = (Ok tt, (PInt (Z.of_nat (length stk)) :: stk, k)).
Proof. reflexivity. Qed.


Lemma stack_checker_diagnostic_witness :
  stack_checker_func demo_sli "leaky" (sr demo_sli "leak" ;;; ret PNone)
    {| stack := []; kernel := 0; debug_flag := true; calls := []; warned := [] |}
  = (Raise (NESTError "Function 'leaky' left 1 elements on the stack."),
     {| stack := [PNone]; kernel := 0; debug_flag := true;
        calls := [EvPop; EvRun "count"; EvRun "leak"; EvPop; EvRun "count"];
        warned := [] |})
  /\ stack_checker_func demo_sli "tidy" (sps (PInt 4) ;;; spp)
       {| stack := []; kernel := 0; debug_flag := true; calls := []; warned := [] |}
     = (Ok (PInt 4),
        {| stack := []; kernel := 0; debug_flag := true;
           calls := [EvPop; EvRun "count"; EvPop; EvPush (PInt 4); EvPop; EvRun "count"];
           warned := [] |}).
Proof.
  split.
  - destruct (stack_checker_diagnostic demo_sli demo_count "leaky"
                (sr demo_sli "leak" ;;; ret PNone)
                {| stack := []; kernel := 0; debug_flag := true; calls := []; warned := [] |}
                {| stack := [PNone]; kernel := 0; debug_flag := true;
                   calls := [EvRun "leak"; EvPop; EvRun "count"]; warned := [] |}
                PNone eq_refl eq_refl) as [H _].
    apply H. vm_compute. lia.
  - destruct (stack_checker_diagnostic demo_sli demo_count "tidy"
                (sps (PInt 4) ;;; spp)
                {| stack := []; kernel := 0; debug_flag := true; calls := []; warned := [] |}
                {| stack := []; kernel := 0; debug_flag := true;
                   calls := [EvPop; EvPush (PInt 4); EvPop; EvRun "count"]; warned := [] |}
                (PInt 4) eq_refl eq_refl) as [_ H].
    apply H. reflexivity.
Defined.

Lemma stack_checker_disabled_witness :
  debug_flag (module_init 0) = false
  /\ stack_checker_func demo_sli "leaky" (sr demo_sli "leak" ;;; ret PNone) (module_init 0)
     = (sr demo_sli "leak" ;;; ret PNone) (module_init 0).
Proof.
  destruct (stack_checker_disabled demo_sli) as (H0 & H & _).
  split; [apply H0 | apply H; reflexivity].
Defined.

Lemma SetStatus_empty_is_noop_witness :
  SetStatus demo_sli (PTuple []) (PDict [(PStr "V_m", PFloat (-70))]) PNone (module_init 0)
  = (Ok PNone, module_init 0).
Proof.
  destruct (SetStatus_empty_is_noop demo_sli demo_count (PTuple [])
              (PDict [(PStr "V_m", PFloat (-70))]) PNone (module_init 0) eq_refl eq_refl)
    as (_ & H & _).
  apply H. reflexivity.
Defined.

Lemma GetStatus_empty_returns_nodes_witness :
  GetStatus demo_sli demo_str (PList []) (PInt 5) (module_init 0)
  = (Ok (PList []), module_init 0).
Proof.
  destruct (GetStatus_empty_returns_nodes demo_sli demo_str demo_count (PList []) (PInt 5)
              (module_init 0) eq_refl eq_refl) as (_ & H & _).
  apply H. reflexivity.
Defined.

Lemma Connect_delay_without_params_witness :
  Connect demo_sli (PTuple [PInt 1; PInt 2]) (PTuple [PInt 3; PInt 4]) PNone (PFloat 1)
    "static_synapse" (module_init 0)
  = (Raise (NESTError "Both 'params' and 'delay' have to be given."), module_init 0).
Proof.
  destruct (Connect_delay_without_params demo_sli demo_count
              (PTuple [PInt 1; PInt 2]) (PTuple [PInt 3; PInt 4]) (PFloat 1)
              "static_synapse" (module_init 0) eq_refl) as [_ H].
  destruct (H 2 eq_refl eq_refl) as [_ H2]. exact H2.
Defined.

Lemma Create_returns_range_witness :
  Create demo_sli demo_str "iaf_neuron" 3 PNone (module_init 4)
  = (Ok (PTuple [PInt 5; PInt 6; PInt 7]),
     {| stack := []; kernel := 7; debug_flag := false;
        calls := [EvPop; EvRun "/iaf_neuron exch Create"; EvPush (PInt 3)];
        warned := [] |}).
Proof.
  destruct (Create_returns_range demo_sli demo_str demo_count "iaf_neuron" 3 PNone
              (module_init 4)
              {| stack := []; kernel := 7; debug_flag := false;
                 calls := [EvPop; EvRun "/iaf_neuron exch Create"; EvPush (PInt 3)];
                 warned := [] |}
              7 [] 7) as [H _];
    [lia | reflexivity | reflexivity | discriminate | exact H].
Defined.

Lemma Create_setstatus_failure_witness :
  Create demo_sli demo_str "iaf_neuron" 2 (PList [PDict []; PDict []]) (module_init 4)
  = (Raise (NESTError "UndefinedName: 2 arraystore"),
     {| stack := [PList [PDict []; PDict []]; PTuple [PInt 5; PInt 6]]; kernel := 6;
        debug_flag := false;
        calls := [EvRun "2 arraystore"; EvPush (PList [PDict []; PDict []]);
                  EvPush (PTuple [PInt 5; PInt 6]);
                  EvPop; EvRun "/iaf_neuron exch Create"; EvPush (PInt 2)];
        warned := ["SetStatus() call failed, but nodes have already been created! The GIDs of the new nodes are: (5, 6)."] |}).
Proof.
  destruct (Create_setstatus_failure demo_sli demo_str demo_count "iaf_neuron" 2
              (PList [PDict []; PDict []]) (module_init 4)
              {| stack := [PList [PDict []; PDict []]; PTuple [PInt 5; PInt 6]]; kernel := 6;
                 debug_flag := false;
                 calls := [EvRun "2 arraystore"; EvPush (PList [PDict []; PDict []]);
                           EvPush (PTuple [PInt 5; PInt 6]);
                           EvPop; EvRun "/iaf_neuron exch Create"; EvPush (PInt 2)];
                 warned := [] |}
              6 [] 6 (NESTError "UndefinedName: 2 arraystore")) as [H _];
    [reflexivity | reflexivity | reflexivity | exact H].
Defined.

(** Further runs on the small interpreter. *)

Example Create_in_diagnostic_mode :
  Create demo_sli demo_str "iaf_neuron" 2 (PDict [(PStr "V_m", PFloat (-70))])
    {| stack := []; kernel := 0; debug_flag := true; calls := []; warned := [] |}
  = (Ok (PTuple [PInt 1; PInt 2]),
     {| stack := []; kernel := 2; debug_flag := true;
        calls := [EvPop; EvRun "count"; EvPop; EvRun "/iaf_neuron 3 1 roll exch Create";
                  EvPush (PInt 2); EvPush (PDict [(PStr "V_m", PFloat (-70))]);
                  EvPop; EvRun "count"];
        warned := [] |}).
Proof. reflexivity. Qed.

Example Create_with_params_of_wrong_length :
  Create demo_sli demo_str "iaf_neuron" 2 (PList [PDict []; PDict []; PDict []]) (module_init 4)
  = (Raise (TypeError "'params' must be a single value, a list with one element or a list with 2 elements."),
     {| stack := []; kernel := 6; debug_flag := false;
        calls := [EvPop; EvRun "/iaf_neuron exch Create"; EvPush (PInt 2)];
        warned := ["SetStatus() call failed, but nodes have already been created! The GIDs of the new nodes are: (5, 6)."] |}).
Proof. reflexivity. Qed.

Example Connect_plain :
  Connect demo_sli (PTuple [PInt 1; PInt 2]) (PTuple [PInt 3; PInt 4]) PNone PNone
    "static_synapse" (module_init 4)
  = (Ok PNone,
     {| stack := []; kernel := 4; debug_flag := false;
        calls := [EvRun "/static_synapse Connect"; EvPush (PInt 4); EvPush (PInt 2);
                  EvRun "/static_synapse Connect"; EvPush (PInt 3); EvPush (PInt 1)];
        warned := [] |}).
Proof. reflexivity. Qed.

Example Connect_weight_delay :
  fst (Connect demo_sli (PTuple [PInt 1; PInt 2]) (PTuple [PInt 3; PInt 4])
         (PFloat 2) (PTuple [PFloat 1]) "static_synapse" (module_init 4))
  = Ok PNone.
Proof. reflexivity. Qed.

Example Connect_length_mismatch :
  Connect demo_sli (PTuple [PInt 1]) (PTuple [PInt 3; PInt 4]) PNone (PFloat 1)
    "static_synapse" (module_init 4)
  = (Raise (NESTError "pre and post have to be the same length"), module_init 4).
Proof. reflexivity. Qed.

Example SetStatus_on_handles :
  calls (snd (SetStatus demo_sli
                (PTuple [encode {| source := 1; target := 3; target_thread := 0;
                                   synapse_modelid := 0; port := 0 |}])
                (PStr "weight") (PFloat 2) (module_init 4)))
  = [EvRun "2 arraystore";
     EvPush (PTuple [PDict [(PStr "weight", PFloat 2)]]);
     EvPushConnections (PTuple [PTuple [PInt 1; PInt 3; PInt 0; PInt 0; PInt 0]])].
Proof. reflexivity. Qed.

Example check_stack_on_a_class :
  let run := {| fn_name := "test_run"; fn_call := fun _ => sr demo_sli "leak" ;;; ret PNone |} in
  let setup := {| fn_name := "setUp"; fn_call := fun _ => ret PNone |} in
  exists attrs',
    check_stack demo_sli demo_str
      (ClassObj (<["test_run" := MethodAttr run]>
                 (<["setUp" := MethodAttr setup]>
                  (<["test_plain" := FunctionAttr run]> ∅))))
    = Ok (ClassObj attrs')
    /\ attrs' !! "test_run" = Some (FunctionAttr (stack_checker demo_sli run))
    /\ attrs' !! "setUp" = Some (MethodAttr setup)
    /\ attrs' !! "test_plain" = Some (FunctionAttr run)
    /\ attrs' !! "other" = None.
Proof.
  intros run setup. eexists.
  split; [unfold check_stack; reflexivity|].
  split; [|split; [|split]]; lazy -[stack_checker run setup]; reflexivity.
Qed.

(** * The further properties on the small interpreter *)

Lemma demo_fan_count (stk : list pyval) (k : Z) :
  demo_sli_fan "count" (stk, k) = (Ok tt, (PInt (Z.of_nat (length stk)) :: stk, k)).
Proof. reflexivity. Qed.

Lemma broadcast_result_length_witness :
  py_len (PList [PDict []; PDict []; PDict []]) = Ok 3.
Proof.
  apply (broadcast_result_length (PList [PDict []]) _ 3 [TyFloat] "weight");
    [lia | right; left; reflexivity | reflexivity].
Defined.

Lemma broadcast_idempotent_witness :
  broadcast (PTuple [PFloat 2; PFloat 2; PFloat 2]) 3 [TyFloat] "delay"
  = Ok (PTuple [PFloat 2; PFloat 2; PFloat 2]).
Proof.
  apply (broadcast_idempotent (PFloat 2) _ 3 [TyFloat] "weight" "delay");
    [lia | left; reflexivity | reflexivity | reflexivity].
Defined.

Lemma stack_checker_propagates_witness :
  stack_checker_func demo_sli "leaky"
    (sr demo_sli "leak" ;;; raise (A := pyval) (ValueError "late"))
    {| stack := []; kernel := 0; debug_flag := true; calls := []; warned := [] |}
  = (Raise (ValueError "late"),
     {| stack := [PNone]; kernel := 0; debug_flag := true;
        calls := [EvRun "leak"; EvPop; EvRun "count"]; warned := [] |}).
Proof.
  apply (stack_checker_propagates demo_sli demo_count); reflexivity.
Defined.

Lemma stack_checker_nested_witness :
  stack_checker_func demo_sli "outer"
    (stack_checker_func demo_sli "inner" (sps (PInt 4) ;;; spp))
    {| stack := []; kernel := 0; debug_flag := true; calls := []; warned := [] |}
  = (Ok (PInt 4),
     guard_exit true
       (guard_exit true
          {| stack := []; kernel := 0; debug_flag := true;
             calls := [EvPop; EvPush (PInt 4); EvPop; EvRun "count"; EvPop; EvRun "count"];
             warned := [] |})).
Proof.
  apply (stack_checker_nested demo_sli demo_count "outer" "inner" (sps (PInt 4) ;;; spp)
           {| stack := []; kernel := 0; debug_flag := true; calls := []; warned := [] |});
    reflexivity.
Defined.

Lemma Connect_unequal_lengths_witness :
  Connect demo_sli (PTuple [PInt 1]) (PTuple [PInt 3; PInt 4]) (PDict []) PNone
    "static_synapse" (module_init 4)
  = (Raise (NESTError "pre and post have to be the same length"), body_entry (module_init 4)).
Proof.
  apply (Connect_unequal_lengths demo_sli demo_count (PTuple [PInt 1]) (PTuple [PInt 3; PInt 4])
           (PDict []) PNone "static_synapse" (module_init 4) 1 2);
    [reflexivity | reflexivity | lia].
Defined.

Lemma Connect_plain_trace_witness :
  exists k',
    Connect demo_sli (PTuple [PInt 1; PInt 2]) (PTuple [PInt 3; PInt 4]) PNone PNone
      "static_synapse" (module_init 4)
    = (Ok PNone,
       guard_exit (debug_flag (module_init 4))
         {| stack := stack (module_init 4); kernel := k';
            debug_flag := debug_flag (module_init 4);
            calls := connect_calls "static_synapse"
                       (combine [PInt 1; PInt 2] [PInt 3; PInt 4])
                     ++ calls (body_entry (module_init 4));
            warned := warned (module_init 4) |}).
Proof.
  apply (Connect_plain_trace demo_sli demo_count (PTuple [PInt 1; PInt 2])
           (PTuple [PInt 3; PInt 4]) "static_synapse" (module_init 4) 2);
    [reflexivity | reflexivity | reflexivity | reflexivity |].
  intros a b stk k Hin. apply list_elem_of_In in Hin. simpl in Hin.
  destruct Hin as [[= <- <-]|[[= <- <-]|[]]]; by eexists.
Defined.

Lemma Connect_params_reaches_loop_witness :
  py_len (PTuple [PDict []; PDict []]) = Ok 2
  /\ Connect demo_sli (PTuple [PInt 1; PInt 2]) (PTuple [PInt 3; PInt 4]) (PDict []) PNone
       "static_synapse" (module_init 4)
     = stack_checker_func demo_sli "Connect"
         (for_each (combine (combine [PInt 1; PInt 2] [PInt 3; PInt 4]) [PDict []; PDict []])
            (fun '(s, d, p) =>
               sps s ;;; sps d ;;; sps p ;;; sr demo_sli (connect_cmd "static_synapse")) ;;;
          ret PNone) (module_init 4).
Proof.
  apply (Connect_params_reaches_loop demo_sli (PTuple [PInt 1; PInt 2])
           (PTuple [PInt 3; PInt 4]) (PDict []) (PTuple [PDict []; PDict []])
           "static_synapse" (module_init 4) 2);
    [reflexivity | left; reflexivity | reflexivity..].
Defined.

Lemma Connect_params_shape_error_witness :
  Connect demo_sli (PTuple [PInt 1; PInt 2]) (PTuple [PInt 3; PInt 4])
    (PList [PDict []; PDict []; PDict []]) PNone "static_synapse" (module_init 4)
  = (Raise (broadcast_error "params" 2), body_entry (module_init 4)).
Proof.
  apply (Connect_params_shape_error demo_sli demo_count (PTuple [PInt 1; PInt 2])
           (PTuple [PInt 3; PInt 4]) (PList [PDict []; PDict []; PDict []])
           "static_synapse" (module_init 4) 2); reflexivity.
Defined.

Lemma ConvergentConnect_partial_witness :
  ConvergentConnect demo_sli (PInt 1) PNone (PFloat 2) PNone "static_synapse" (module_init 4)
  = (Raise (NESTError "Both 'weight' and 'delay' have to be given."),
     body_entry (module_init 4)).
Proof.
  apply (ConvergentConnect_partial demo_sli demo_count). reflexivity.
Defined.

Lemma DivergentConnect_partial_witness :
  DivergentConnect demo_sli (PTuple [PInt 1]) (PTuple [PInt 2; PInt 3]) PNone (PFloat 1)
    "static_synapse" (module_init 4)
  = (Raise (NESTError "Both 'weight' and 'delay' have to be given."),
     body_entry (module_init 4)).
Proof.
  apply (DivergentConnect_partial demo_sli demo_count). reflexivity.
Defined.

Lemma Convergent_fan_in_trace_witness :
  (exists k',
     ConvergentConnect demo_sli_fan (PTuple [PInt 1; PInt 2; PInt 3]) (PTuple [PInt 4])
       PNone PNone "static_synapse" (module_init 4)
     = (Ok PNone,
        guard_exit (debug_flag (module_init 4))
          {| stack := stack (module_init 4); kernel := k';
             debug_flag := debug_flag (module_init 4);
             calls := convergent_calls "static_synapse" (PTuple [PInt 1; PInt 2; PInt 3])
                        [PInt 4]
                      ++ calls (body_entry (module_init 4));
             warned := warned (module_init 4) |}))
  /\ ([PInt 4] = [] ->
      ConvergentConnect_body demo_sli_fan (PTuple [PInt 1; PInt 2; PInt 3]) (PTuple [PInt 4])
        PNone PNone "static_synapse" (module_init 4)
      = (Ok PNone, module_init 4)).
Proof.
  apply (Convergent_fan_in_trace demo_sli_fan demo_fan_count
           (PTuple [PInt 1; PInt 2; PInt 3]) (PTuple [PInt 4]) "static_synapse"
           (module_init 4) [PInt 4]); [reflexivity|].
  intros d stk k _. by eexists.
Defined.

Lemma FindConnections_both_names_witness :
  FindConnections demo_sli (PTuple [PInt 1]) PNone (PStr "static_synapse")
    (PStr "static_synapse") (module_init 4)
  = (Raise (NESTError "synapse_type is alias for synapse_model, cannot be used together."),
     body_entry (module_init 4)).
Proof.
  apply (FindConnections_both_names demo_sli demo_count); reflexivity.
Defined.

Lemma decode_all_shape_witness :
  exists rows ds,
    py_iter (PTuple [PTuple [PInt 1; PInt 3; PInt 0; PInt 0; PInt 0]]) = Ok rows
    /\ PTuple [PDict [(PStr "source", PInt 1); (PStr "target_thread", PInt 0);
                      (PStr "synapse_modelid", PInt 0); (PStr "port", PInt 0)]]
       = PTuple ds
    /\ length ds = length rows
    /\ Forall (fun d => exists src thr sm prt,
                 d = PDict [(PStr "source", PInt src); (PStr "target_thread", PInt thr);
                            (PStr "synapse_modelid", PInt sm); (PStr "port", PInt prt)]) ds.
Proof.
  apply (decode_all_shape (PTuple [PTuple [PInt 1; PInt 3; PInt 0; PInt 0; PInt 0]])).
  reflexivity.
Defined.

Lemma status_nodes_not_a_sequence_witness :
  SetStatus demo_sli (PInt 1) (PDict []) PNone (module_init 4)
  = (Raise (TypeError "nodes must be a list of nodes or synapses"), body_entry (module_init 4))
  /\ GetStatus demo_sli demo_str (PInt 1) PNone (module_init 4)
     = (Raise (TypeError "nodes must be a list of nodes or synapses"),
        body_entry (module_init 4)).
Proof.
  apply (status_nodes_not_a_sequence demo_sli demo_str demo_count). reflexivity.
Defined.

Lemma SetStatus_name_value_witness :
  SetStatus demo_sli (PTuple [PInt 1; PInt 2]) (PStr "V_m") (PFloat (-70)) (module_init 4)
  = SetStatus demo_sli (PTuple [PInt 1; PInt 2]) (PDict [(PStr "V_m", PFloat (-70))]) PNone
      (module_init 4)
  /\ SetStatus demo_sli (PTuple [PInt 1; PInt 2]) (PStr "V_m")
       (PList [PFloat (-70); PFloat (-65)]) (module_init 4)
     = SetStatus demo_sli (PTuple [PInt 1; PInt 2])
         (PList (map (fun x => PDict [(PStr "V_m", x)]) [PFloat (-70); PFloat (-65)])) PNone
         (module_init 4).
Proof.
  split.
  - destruct (SetStatus_name_value demo_sli (PTuple [PInt 1; PInt 2]) (PStr "V_m")
                (PFloat (-70)) (module_init 4) eq_refl eq_refl) as [H _].
    apply H. reflexivity.
  - destruct (SetStatus_name_value demo_sli (PTuple [PInt 1; PInt 2]) (PStr "V_m")
                (PList [PFloat (-70); PFloat (-65)]) (module_init 4) eq_refl eq_refl)
      as [_ H].
    apply H; reflexivity.
Defined.

Lemma SetStatus_shape_error_witness :
  SetStatus demo_sli (PTuple [PInt 1; PInt 2]) (PList [PDict []; PDict []; PDict []]) PNone
    (module_init 4)
  = (Raise (broadcast_error "params" 2), body_entry (module_init 4)).
Proof.
  apply (SetStatus_shape_error demo_sli demo_count (PTuple [PInt 1; PInt 2])
           (PList [PDict []; PDict []; PDict []]) (module_init 4) 2);
    [reflexivity | reflexivity | lia | reflexivity].
Defined.

Lemma GetStatus_rejects_keys_witness :
  GetStatus demo_sli demo_str (PTuple [PInt 1]) (PInt 5) (module_init 4)
  = (Raise (TypeError "keys should be either a string or an iterable"),
     body_entry (module_init 4)).
Proof.
  apply (GetStatus_rejects_keys demo_sli demo_str demo_count (PTuple [PInt 1]) (PInt 5)
           (module_init 4) 1); [reflexivity | reflexivity | lia | reflexivity..].
Defined.

Lemma is_sequence_of_connections_total_witness :
  is_sequence_of_connections (PTuple []) = Raise StopIteration
  /\ exists b, is_sequence_of_connections (PTuple [PInt 1; PInt 2]) = Ok b.
Proof.
  split.
  - destruct (is_sequence_of_connections_total (PTuple [])) as [H _].
    apply H. reflexivity.
  - destruct (is_sequence_of_connections_total (PTuple [PInt 1; PInt 2])) as [_ H].
    apply (H 2); [reflexivity | reflexivity | lia].
Defined.

Lemma Create_no_nodes_witness :
  Create demo_sli demo_str "iaf_neuron" 0 (PList [PInt 1; PInt 2; PInt 3])
    {| stack := []; kernel := 4; debug_flag := true; calls := []; warned := [] |}
  = (Ok (PTuple []),
     {| stack := []; kernel := 4; debug_flag := true;
        calls := [EvPop; EvRun "count";
                  EvPop; EvRun "count"; EvPop; EvRun "count";
                  EvPop; EvRun "/iaf_neuron exch Create"; EvPush (PInt 0);
                  EvPop; EvRun "count"];
        warned := [] |}).
Proof.
  apply (Create_no_nodes demo_sli demo_str demo_count "iaf_neuron" 0
           (PList [PInt 1; PInt 2; PInt 3])
           {| stack := []; kernel := 4; debug_flag := true; calls := []; warned := [] |}
           4 [] 4); [lia | reflexivity | reflexivity].
Defined.

Lemma Create_checks_params_late_witness :
  exists s',
    Create demo_sli demo_str "iaf_neuron" 2 (PList [PDict []; PDict []; PDict []])
      (module_init 4)
    = (Raise (broadcast_error "params" 2), s')
    /\ kernel s' = 6
    /\ warned s'
       = create_warning demo_str (PTuple (py_range (6 - 2 + 1) (6 + 1)))
         :: warned (module_init 4)
    /\ In (EvRun (create_cmd "iaf_neuron" (PList [PDict []; PDict []; PDict []]))) (calls s').
Proof.
  apply (Create_checks_params_late demo_sli demo_str demo_count "iaf_neuron" 2
           (PList [PDict []; PDict []; PDict []]) (module_init 4) 6 [] 6);
    [lia | reflexivity | reflexivity | reflexivity].
Defined.

Lemma created_gids_are_gids_witness :
  is_sequence_of_gids (py_range 5 8) = true.
Proof. apply created_gids_are_gids. right. lia. Defined.

Lemma sub_ending_source_names_witness :
  sub_ending ("sliexceptions" +:+ ".cc") = "sliexceptions" +:+ ".o"
  /\ sub_ending ("gnureadline" +:+ ".cpp") = "gnureadline" +:+ ".o"
  /\ sub_ending ("ltdl" +:+ ".c") = "ltdl" +:+ ".o".
Proof.
  split; [|split].
  - destruct (sub_ending_source_names "sliexceptions" eq_refl) as (H & _). exact H.
  - destruct (sub_ending_source_names "gnureadline" eq_refl) as (_ & H & _). exact H.
  - destruct (sub_ending_source_names "ltdl" eq_refl) as (_ & _ & H & _). exact H.
Defined.

Lemma add_target_needs_sources_witness :
  reduce_join (get_object_from_source ["sli.cc"; "puresli.cpp"; "ltdl.c"])
  = Ok (String.concat " " (map sub_ending ["sli.cc"; "puresli.cpp"; "ltdl.c"])).
Proof.
  destruct (add_target_needs_sources "sli" "sli" ["sli.cc"; "puresli.cpp"; "ltdl.c"])
    as [_ H].
  apply H. discriminate.
Defined.

Example sub_ending_inner_match :
  sub_ending "a.config.cc" = "a.oonfig.o" /\ sub_ending "x.cxx" = "x.oxx".
Proof. split; reflexivity. Qed.
